(** * The resilient service client of matrix-system

    A shallow embedding of [src/matrix_system/api/client.py] and
    [src/matrix_system/api/exceptions.py]: header injection, response
    classification and the bounded retry loop of [MatrixClient.request],
    followed by the properties of the specification that concern them.

    Python values are embedded as the inductive [Value]; dictionaries are
    finite maps; exceptions are data carried by the [Raise] outcome; the
    transport and the logger are the two effects, both recorded in a
    [Trace] threaded through a small state-and-exception monad. *)

From Stdlib Require Import ZArith String Ascii Bool List Lia.
From stdpp Require Import base option gmap strings list fin_maps pretty.

Set Warnings "-register-all".
Set Default Proof Using "Type".

Local Open Scope Z_scope.

(** ** Python values *)

(** The objects [json.loads] can build, which are also the objects that end
    up in the [message] and [response_data] attributes of the exceptions.
    A [float] is kept as its IEEE-754 binary64 bit pattern. *)
Inductive Value : Type :=
| VNone
| VBool (b : bool)
| VInt (n : Z)
| VFloat (bits : Z)
| VStr (s : string)
| VList (l : list Value)
| VDict (d : gmap string Value).

(** [bool(v)]: the truth value Python's [if], [not] and [or] use. *)
Definition truthy (v : Value) : bool :=
  match v with
  | VNone => false
  | VBool b => b
  | VInt n => negb (n =? 0)
  | VFloat bits => negb (Z.land bits (2 ^ 63 - 1) =? 0)
  | VStr s => negb (String.eqb s "")
  | VList l => match l with [] => false | _ :: _ => true end
  | VDict d => negb (bool_decide (d = ∅))
  end.

(** Truth value of an [Optional[str]] such as [config.api_token] or the
    result of [headers.get]. *)
Definition truthy_str (o : option string) : bool :=
  match o with
  | None => false
  | Some s => negb (String.eqb s "")
  end.

(** Truth value of an [Optional[int]] such as [e.retry_after]. *)
Definition truthy_int (o : option Z) : bool :=
  match o with
  | None => false
  | Some n => negb (n =? 0)
  end.

(** ** Text *)

(** [sub in s] for strings, as a proposition and as a test. *)
Definition contains (sub s : string) : Prop :=
  ∃ pre post, s = pre +:+ sub +:+ post.

Fixpoint is_prefix (p s : string) : bool :=
  match p, s with
  | EmptyString, _ => true
  | String _ _, EmptyString => false
  | String a p', String b s' => Ascii.eqb a b && is_prefix p' s'
  end.

Fixpoint containsb (sub s : string) : bool :=
  is_prefix sub s ||
  match s with
  | EmptyString => false
  | String _ s' => containsb sub s'
  end.

(** [bytes.lower()]: only the ASCII letters change. *)
Definition lower_ascii (c : ascii) : ascii :=
  let n := N_of_ascii c in
  if ((65 <=? n) && (n <=? 90))%N then ascii_of_N (n + 32) else c.

Fixpoint lower (s : string) : string :=
  match s with
  | EmptyString => EmptyString
  | String c s' => String (lower_ascii c) (lower s')
  end.

(** [sep.join(items)]. *)
Fixpoint join (sep : string) (items : list string) : string :=
  match items with
  | [] => ""
  | [x] => x
  | x :: rest => x +:+ sep +:+ join sep rest
  end.

(** *** [int(s)] for a string argument

    For ASCII text: Python skips white space at both ends (space, tab,
    line feed, vertical tab, form feed, carriage return), reads an
    optional sign and then decimal digits, where single underscores may
    separate digits, and refuses more than 4300 digits (the interpreter's
    default limit for the conversion).  Anything else is a [ValueError],
    here [None].  Text with characters from 128 on, where [int()] also
    reads Unicode digits and white space, is outside this definition: the
    properties that depend on it assume ASCII text. *)
Definition is_space (c : ascii) : bool :=
  let n := N_of_ascii c in
  (((9 <=? n) && (n <=? 13)) || (n =? 32))%N.

Definition digit_of (c : ascii) : option Z :=
  let n := Z.of_N (N_of_ascii c) in
  if (48 <=? n) && (n <=? 57) then Some (n - 48) else None.

Fixpoint lstrip (s : string) : string :=
  match s with
  | EmptyString => EmptyString
  | String c s' => if is_space c then lstrip s' else s
  end.

Fixpoint all_space (s : string) : bool :=
  match s with
  | EmptyString => true
  | String c s' => is_space c && all_space s'
  end.

(** What the digit reader has just consumed. *)
Inductive DigitState := AtStart | AfterDigit | AfterUnderscore.

Fixpoint read_digits (st : DigitState) (acc : Z) (s : string) : option Z :=
  match s with
  | EmptyString =>
      match st with AfterDigit => Some acc | _ => None end
  | String c s' =>
      match digit_of c with
      | Some d => read_digits AfterDigit (10 * acc + d) s'
      | None =>
          match st with
          | AfterDigit =>
              if Ascii.eqb c "_"%char then read_digits AfterUnderscore acc s'
              else if all_space s then Some acc else None
          | _ => None
          end
      end
  end.

(** The number of digit characters of a text. *)
Fixpoint count_digits (s : string) : N :=
  match s with
  | EmptyString => 0%N
  | String c s' =>
      ((match digit_of c with Some _ => 1 | None => 0 end) + count_digits s')%N
  end.

(** The limit [int()] puts on the number of digits it converts. *)
Definition max_str_digits : N := 4300%N.

Definition python_int (s : string) : option Z :=
  let value :=
    match lstrip s with
    | String "-"%char rest => Z.opp <$> read_digits AtStart 0 rest
    | String "+"%char rest => read_digits AtStart 0 rest
    | rest => read_digits AtStart 0 rest
    end in
  if (count_digits s <=? max_str_digits)%N then value else None.

(** ** The httpx interface

    httpx is a third-party library; the client uses its [Client.request],
    its [Response] (status code, headers, body, [json()],
    [raise_for_status()]) and three of its exception classes. *)
Module httpx.

(** The keyword arguments of [Client.request] as the client passes them. *)
Record Request : Type := {
  method : string;
  url : string;
  headers_sent : gmap string string;
  kwargs : gmap string Value
}.

Record Response : Type := {
  status_code : Z;
  headers : list (string * string);
  content : string
}.

(** What one call of [Client.request] can raise.  [TimeoutException]
    stands for the class and its subclasses; [OtherError] is any httpx
    error that is neither a [ConnectError] nor a [TimeoutException]. *)
Inductive TransportError : Type :=
| ConnectError
| TimeoutException
| OtherError (cls : string).

(** [Headers.get(key)]: header names compare without case, and the
    values of a repeated header are joined with a comma. *)
Definition get (hs : list (string * string)) (key : string) : option string :=
  match filter (λ kv, lower kv.1 = lower key) hs with
  | [] => None
  | items => Some (join ", " (snd <$> items))
  end.

(** Modelled from the spec: [Response.raise_for_status] is httpx code, not
    part of the repository; the specification (4.4, items 3 and 8) puts
    the boundary between a success and an error response at status 400. *)
Definition is_error (r : Response) : bool := 400 <=? status_code r.

(** The transport behind a client: what the [i]-th call of
    [Client.request] (counting from 0 within one logical call) does with
    the request it is given. *)
Definition Client : Type := nat → Request → TransportError + Response.

End httpx.

(** ** Configuration ([utils/config.py]) *)

Record Config : Type := {
  matrix_hub_url : string;
  matrix_ai_url : string;
  matrix_guardian_url : string;
  api_token : option string;
  timeout : Z;
  max_retries : Z;
  log_level : string;
  log_json : bool
}.

(** ** Exceptions ([api/exceptions.py]) *)

Inductive MatrixErrorClass : Type :=
| MatrixAPIError
| MatrixConnectionError
| MatrixTimeoutError
| MatrixAuthError
| MatrixValidationError
| MatrixNotFoundError
| MatrixRateLimitError.

(** An instance of [MatrixAPIError] or of one of its subclasses.  Only
    [MatrixRateLimitError] instances have a [retry_after] attribute; it is
    [None] for the other classes. *)
Record MatrixException : Type := {
  cls : MatrixErrorClass;
  message : Value;
  status_code : option Z;
  response_data : Value;
  retry_after : option Z
}.

(** [MatrixAPIError.__init__]: [response_data or {}]. *)
Definition MatrixAPIError__init__ (c : MatrixErrorClass) (message : Value)
    (status_code : option Z) (response_data : option Value) : MatrixException :=
  {| cls := c;
     message := message;
     status_code := status_code;
     response_data :=
       match response_data with
       | Some d => if truthy d then d else VDict ∅
       | None => VDict ∅
       end;
     retry_after := None |}.

Definition MatrixConnectionError__init__ (message : Value) : MatrixException :=
  MatrixAPIError__init__ MatrixConnectionError message None None.

Definition MatrixTimeoutError__init__ (message : Value) : MatrixException :=
  MatrixAPIError__init__ MatrixTimeoutError message None None.

Definition MatrixAuthError__init__ (message : Value) (status_code : Z)
    : MatrixException :=
  MatrixAPIError__init__ MatrixAuthError message (Some status_code) None.

Definition MatrixValidationError__init__ (message : Value) (status_code : Z)
    (response_data : option Value) : MatrixException :=
  MatrixAPIError__init__ MatrixValidationError message (Some status_code)
    response_data.

Definition MatrixNotFoundError__init__ (message : Value) (status_code : Z)
    : MatrixException :=
  MatrixAPIError__init__ MatrixNotFoundError message (Some status_code) None.

(** [self.retry_after = retry_after] on an instance. *)
Definition set_retry_after (e : MatrixException) (seconds : option Z)
    : MatrixException :=
  {| cls := cls e; message := message e; status_code := status_code e;
     response_data := response_data e; retry_after := seconds |}.

Definition MatrixRateLimitError__init__ (message : Value) (status_code : Z)
    (retry_after : option Z) : MatrixException :=
  set_retry_after
    (MatrixAPIError__init__ MatrixRateLimitError message (Some status_code) None)
    retry_after.

(** Everything that can be raised while [request] runs. *)
Inductive Exception : Type :=
| Transport (e : httpx.TransportError)
| HTTPStatusError (response : httpx.Response)
| JSONDecodeError
| UnboundLocalError (name : string)
| ValueError
| Matrix (e : MatrixException).

(** ** Effects *)

Inductive Level : Type := DEBUG | WARNING | ERROR.

(** What one logical call did: the requests handed to the transport, oldest
    first, and the events given to the logger. *)
Record Trace : Type := {
  sent : list httpx.Request;
  logged : list (Level * string)
}.

Definition empty_trace : Trace := {| sent := []; logged := [] |}.

Definition attempts (t : Trace) : nat := length (sent t).

Inductive Outcome (A : Type) : Type :=
| Return (a : A)
| Raise (e : Exception).
Arguments Return {A} a.
Arguments Raise {A} e.

(** Computations that read and extend the trace and may raise. *)
Definition M (A : Type) : Type := Trace → Outcome A * Trace.

Definition ret {A} (a : A) : M A := λ t, (Return a, t).

Definition raise {A} (e : Exception) : M A := λ t, (Raise e, t).

Definition bind {A B} (m : M A) (k : A → M B) : M B :=
  λ t, match m t with
       | (Return a, t') => k a t'
       | (Raise e, t') => (Raise e, t')
       end.

(** [try: body  except ...: handler]: the handler sees every exception of
    the body and re-raises those its clauses do not name. *)
Definition try_except {A} (body : M A) (handler : Exception → M A) : M A :=
  λ t, match body t with
       | (Return a, t') => (Return a, t')
       | (Raise e, t') => handler e t'
       end.

(** The trace after the logger got one more event. *)
Definition logging (lvl : Level) (event : string) (t : Trace) : Trace :=
  {| sent := sent t; logged := logged t ++ [(lvl, event)] |}.

(** The trace after one more request went to the transport. *)
Definition sending (req : httpx.Request) (t : Trace) : Trace :=
  {| sent := sent t ++ [req]; logged := logged t |}.

Definition log (lvl : Level) (event : string) : M unit :=
  λ t, (Return tt, logging lvl event t).

Declare Scope monad_scope.
Delimit Scope monad_scope with M.
Notation "'let*' x ':=' m 'in' k" := (bind m (λ x, k))
  (at level 10, x name, m at level 100, k at level 200) : monad_scope.
Local Open Scope monad_scope.

(** ** Configuration checks ([utils/config.py]) *)

(** [str.upper()], for ASCII text: only the letters [a]-[z] change.  Text
    with characters from 128 on, which [str.upper()] may change too, is
    outside this definition: the properties of [validate_log_level] assume
    ASCII text. *)
Definition upper_ascii (c : ascii) : ascii :=
  let n := N_of_ascii c in
  if ((97 <=? n) && (n <=? 122))%N then ascii_of_N (n - 32) else c.

Fixpoint upper (s : string) : string :=
  match s with
  | EmptyString => EmptyString
  | String c s' => String (upper_ascii c) (upper s')
  end.

(** Text whose characters are all below 128. *)
Fixpoint is_ascii (s : string) : bool :=
  match s with
  | EmptyString => true
  | String c s' => (N_of_ascii c <? 128)%N && is_ascii s'
  end.

(** The set [valid_levels] of [Config.validate_log_level]. *)
Definition valid_levels : gset string :=
  {[ "DEBUG"; "INFO"; "WARNING"; "ERROR"; "CRITICAL" ]}.

(** [Config.validate_log_level]. *)
Definition validate_log_level (v : string) : Outcome string :=
  let v_upper := upper v in
  if bool_decide (v_upper ∉ valid_levels) then Raise ValueError
  else Return v_upper.

(** The bounds declared for the two HTTP fields of [Config]:
    [timeout: Field(ge=1, le=300)] and [max_retries: Field(ge=0, le=10)]. *)
Definition timeout_in_bounds (c : Config) : bool :=
  (1 <=? timeout c) && (timeout c <=? 300).

Definition max_retries_in_bounds (c : Config) : bool :=
  (0 <=? max_retries c) && (max_retries c <=? 10).

(** [get_config], with the module-level [_config] passed in and out.
    [load] stands for the call [Config()], which reads the environment
    and yields [None] when it raises; the result is the value returned
    ([None] when the exception of [Config()] propagates) and the new
    [_config]. *)
Definition get_config {Env : Type} (load : Env → option Config) (env : Env)
    (_config : option Config) : option Config * option Config :=
  match _config with
  | None =>
      match load env with
      | Some c => (Some c, Some c)
      | None => (None, None)
      end
  | Some c => (Some c, Some c)
  end.

(** The [headers] argument of the [http_request] debug event in
    [MatrixClient.request]:
    [{k: v for k, v in headers.items() if k != "Authorization"}]. *)
Definition logged_headers (headers : gmap string string) : gmap string string :=
  filter (λ kv, kv.1 ≠ "Authorization") headers.

(** ** The client ([api/client.py]) *)

Record MatrixClient : Type := {
  config : Config;
  client : httpx.Client
}.

(** The text appended to the message of a 401 or 403 when no token is set. *)
Definition token_hint : string :=
  " (token missing: set MATRIX_HUB_TOKEN / MATRIX_TOKEN / API_TOKEN " +:+
  "for operator/admin endpoints like install/remotes/ingest)".

(** [MatrixClient._get_headers]. *)
Definition _get_headers (self : MatrixClient) : gmap string string :=
  let headers : gmap string string :=
    <["User-Agent" := "matrix-system/1.0.0"]>
      (<["Accept" := "application/json"]>
         (<["Content-Type" := "application/json"]> ∅)) in
  match api_token (config self) with
  | Some token =>
      if truthy_str (Some token)
      then <["Authorization" := "Bearer " +:+ token]> headers
      else headers
  | None => headers
  end.

Section Client.

(** Three pieces of the Python runtime and of httpx are left open: the
    JSON decoder behind [Response.json()] ([None] when it raises), [repr]
    on floats, lists and dictionaries, and the text of the
    [HTTPStatusError] that [raise_for_status] builds for a response. *)
Variable json_loads : string → option Value.
Variable py_repr : Value → string.
Variable status_error_str : httpx.Response → string.

(** [str(v)], as an f-string applies it to an interpolated value. *)
Definition str (v : Value) : string :=
  match v with
  | VStr s => s
  | VNone => "None"
  | VBool true => "True"
  | VBool false => "False"
  | VInt n => pretty n
  | _ => py_repr v
  end.

(** [response.json()]. *)
Definition json (response : httpx.Response) : M Value :=
  match json_loads (httpx.content response) with
  | Some v => ret v
  | None => raise JSONDecodeError
  end.

(** [response.raise_for_status()]. *)
Definition raise_for_status (response : httpx.Response) : M unit :=
  if httpx.is_error response then raise (HTTPStatusError response)
  else ret tt.

(** [int(s)]. *)
Definition int (s : string) : M Z :=
  match python_int s with
  | Some n => ret n
  | None => raise ValueError
  end.

(** Reading a local variable that an earlier statement may have left
    unassigned. *)
Definition local (name : string) (binding : option Value) : M Value :=
  match binding with
  | Some v => ret v
  | None => raise (UnboundLocalError name)
  end.

(** The inner [try]/[except Exception] of [_handle_response]: the
    bindings of [error_data] (if any) and of [error_message] after it.
    [json()] raising leaves [error_data] unassigned; [.get] on a decoded
    value that is not a dictionary raises [AttributeError] after
    [error_data] was assigned. *)
Definition error_details (response : httpx.Response) : option Value * Value :=
  let str_e := VStr (status_error_str response) in
  match json_loads (httpx.content response) with
  | Some (VDict d) => (Some (VDict d), default str_e (d !! "detail"))
  | Some error_data => (Some error_data, str_e)
  | None => (None, str_e)
  end.

(** [MatrixClient._handle_response]. *)
Definition _handle_response (self : MatrixClient) (response : httpx.Response)
    : M Value :=
  try_except
    (let* _ := raise_for_status response in
     if negb (String.eqb (httpx.content response) "") then json response
     else ret (VDict ∅))
    (λ exn,
       match exn with
       | HTTPStatusError e_response =>
           let status_code := httpx.status_code e_response in
           let '(error_data, error_message) := error_details e_response in
           let* _ := log ERROR "http_error" in
           if (status_code =? 401) || (status_code =? 403) then
             let hint :=
               if negb (truthy_str (api_token (config self)))
               then token_hint else "" in
             raise (Matrix (MatrixAuthError__init__
                              (VStr (str error_message +:+ hint)) status_code))
           else if status_code =? 404 then
             raise (Matrix (MatrixNotFoundError__init__ error_message status_code))
           else if status_code =? 422 then
             let* error_data := local "error_data" error_data in
             raise (Matrix (MatrixValidationError__init__
                              error_message status_code (Some error_data)))
           else if status_code =? 429 then
             let retry_after := httpx.get (httpx.headers e_response) "Retry-After" in
             let* seconds :=
               match retry_after with
               | Some text =>
                   if truthy_str retry_after
                   then let* n := int text in ret (Some n)
                   else ret None
               | None => ret None
               end in
             raise (Matrix (MatrixRateLimitError__init__
                              error_message status_code seconds))
           else
             let* error_data := local "error_data" error_data in
             raise (Matrix (MatrixAPIError__init__ MatrixAPIError
                              error_message (Some status_code) (Some error_data)))
       | _ => raise exn
       end).

(** [self.client.request(...)]: one network attempt. *)
Definition client_request (self : MatrixClient) (req : httpx.Request)
    : M httpx.Response :=
  λ t,
    match client self (attempts t) req with
    | inl e => (Raise (Transport e), sending req t)
    | inr response => (Return response, sending req t)
    end.

(** The body of the [try] inside the loop of [request]. *)
Definition attempt (self : MatrixClient) (req : httpx.Request) : M Value :=
  let* response := client_request self req in
  _handle_response self response.

Definition connection_message (url : string) (retries : Z) : Value :=
  VStr ("Failed to connect to " +:+ url +:+ " after " +:+ pretty retries
        +:+ " attempts").

Definition timeout_message (self : MatrixClient) (url : string) : Value :=
  VStr ("Request to " +:+ url +:+ " timed out after "
        +:+ pretty (timeout (config self)) +:+ "s").

(** The [while retries <= self.config.max_retries] loop of [request] and
    the two statements after it.  [fuel] bounds the number of times the
    loop condition is evaluated; [None] means the bound was too small. *)
Fixpoint retry_loop (self : MatrixClient) (req : httpx.Request)
    (fuel : nat) (retries : Z) (last_exception : option Exception)
    (t : Trace) : option (Outcome Value * Trace) :=
  match fuel with
  | O => None
  | S fuel =>
      if retries <=? max_retries (config self) then
        match attempt self req t with
        | (Return v, t1) => Some (Return v, t1)
        | (Raise e, t1) =>
            match e with
            | Transport httpx.ConnectError =>
                let t2 := (log WARNING "connection_error" t1).2 in
                let retries := retries + 1 in
                if retries >? max_retries (config self) then
                  Some (Raise (Matrix (MatrixConnectionError__init__
                          (connection_message (httpx.url req) retries))), t2)
                else retry_loop self req fuel retries (Some e) t2
            | Transport httpx.TimeoutException =>
                let t2 := (log WARNING "timeout_error" t1).2 in
                let retries := retries + 1 in
                if retries >? max_retries (config self) then
                  Some (Raise (Matrix (MatrixTimeoutError__init__
                          (timeout_message self (httpx.url req)))), t2)
                else retry_loop self req fuel retries (Some e) t2
            | Matrix m =>
                match cls m with
                | MatrixAuthError | MatrixValidationError
                | MatrixNotFoundError => Some (Raise e, t1)
                | MatrixRateLimitError =>
                    let t2 :=
                      if truthy_int (retry_after m)
                      then (log WARNING "rate_limited" t1).2 else t1 in
                    Some (Raise e, t2)
                | _ => Some (Raise e, t1)
                end
            | _ => Some (Raise e, t1)
            end
        end
      else
        match last_exception with
        | Some _ =>
            Some (Raise (Matrix (MatrixConnectionError__init__
                    (connection_message (httpx.url req) retries))), t)
        | None => Some (Return (VDict ∅), t)
        end
  end.

(** [kwargs.pop("headers", {})] followed by
    [headers.update(self._get_headers())]. *)
Definition outgoing_headers (self : MatrixClient)
    (headers : option (gmap string string)) : gmap string string :=
  _get_headers self ∪ default ∅ headers.

Definition outgoing (self : MatrixClient) (method url : string)
    (headers : option (gmap string string)) (kwargs : gmap string Value)
    : httpx.Request :=
  {| httpx.method := method;
     httpx.url := url;
     httpx.headers_sent := outgoing_headers self headers;
     httpx.kwargs := kwargs |}.

(** [MatrixClient.request].  The loop condition is evaluated at most
    [max_retries + 1] times when [max_retries >= 0], once otherwise. *)
Definition request (self : MatrixClient) (method url : string)
    (headers : option (gmap string string)) (kwargs : gmap string Value)
    : option (Outcome Value * Trace) :=
  let req := outgoing self method url headers kwargs in
  let t := (log DEBUG "http_request" empty_trace).2 in
  retry_loop self req (S (Z.to_nat (max_retries (config self)))) 0 None t.

(** [MatrixClient.get], [post], [put] and [delete]. *)
Definition get (self : MatrixClient) (url : string)
    (headers : option (gmap string string)) (kwargs : gmap string Value)
    : option (Outcome Value * Trace) :=
  request self "GET" url headers kwargs.

Definition post (self : MatrixClient) (url : string)
    (headers : option (gmap string string)) (kwargs : gmap string Value)
    : option (Outcome Value * Trace) :=
  request self "POST" url headers kwargs.

Definition put (self : MatrixClient) (url : string)
    (headers : option (gmap string string)) (kwargs : gmap string Value)
    : option (Outcome Value * Trace) :=
  request self "PUT" url headers kwargs.

Definition delete (self : MatrixClient) (url : string)
    (headers : option (gmap string string)) (kwargs : gmap string Value)
    : option (Outcome Value * Trace) :=
  request self "DELETE" url headers kwargs.

(** The dictionary [service_urls] of [health_check].  The URL fields of
    [Config] hold the text [str()] gives for them. *)
Definition service_urls (self : MatrixClient) : gmap string string :=
  <["guardian" := matrix_guardian_url (config self)]>
    (<["ai" := matrix_ai_url (config self)]>
       (<["hub" := matrix_hub_url (config self)]> ∅)).

(** [MatrixClient.health_check].  The [ValueError] for an unknown service
    is raised before anything is logged or sent. *)
Definition health_check (self : MatrixClient) (service : string)
    : option (Outcome Value * Trace) :=
  match service_urls self !! service with
  | None => Some (Raise ValueError, empty_trace)
  | Some base => get self (base +:+ "/health") None ∅
  end.

(** [MatrixAPIError.__str__], inherited by every subclass.  [None] stands
    for the [TypeError] Python raises when [__str__] returns [self.message]
    and that is not a string. *)
Definition MatrixAPIError__str__ (e : MatrixException) : option string :=
  match status_code e with
  | Some code =>
      if truthy_int (Some code)
      then Some ("[" +:+ pretty code +:+ "] " +:+ str (message e))
      else match message e with VStr s => Some s | _ => None end
  | None => match message e with VStr s => Some s | _ => None end
  end.

(** *** The [health] command ([cli/main.py])

    The command builds a client from the configuration, checks each
    service in turn and prints a table with one row per service.  The
    model keeps the rows handed to [table.add_row]; the console, the
    logger and the closing of the client are left out.  The table is
    printed only after the loop, so it is the result when no exception
    leaves the loop. *)

(** What can leave the loop of [health]: an exception of [health_check]
    that is not a [MatrixAPIError], the [AttributeError] of
    [result.get] on a result that is not a dictionary, or the
    [TypeError] of [str(e)]. *)
Inductive Uncaught : Type :=
| Escaped (e : Exception)
| AttributeError
| TypeError.

Record Row : Type := {
  service_cell : string;
  status_cell : string;
  time_cell : string
}.

(** [["hub", "ai", "guardian"] if service == "all" else [service]]. *)
Definition services_to_check (service : string) : list string :=
  if String.eqb service "all" then ["hub"; "ai"; "guardian"] else [service].

(** The text [f"{duration}ms"] of the [i]-th service checked: what the two
    readings of [time.time()] and [round] give is left open. *)
Variable duration_text : nat → string.

(** The body of the loop for one service: the row it adds, or what leaves
    the loop. *)
Definition health_step (self : MatrixClient) (i : nat) (svc : string)
    : option (Uncaught + Row) :=
  match health_check self svc with
  | None => None
  | Some (Return result, _) =>
      match result with
      | VDict d =>
          let status := default (VStr "unknown") (d !! "status") in
          Some (inr {| service_cell := upper svc;
                       status_cell := "✓ " +:+ str status;
                       time_cell := duration_text i |})
      | _ => Some (inl AttributeError)
      end
  | Some (Raise (Matrix e), _) =>
      match MatrixAPIError__str__ e with
      | Some text =>
          Some (inr {| service_cell := upper svc;
                       status_cell := "✗ " +:+ text;
                       time_cell := "N/A" |})
      | None => Some (inl TypeError)
      end
  | Some (Raise e, _) => Some (inl (Escaped e))
  end.

(** [for svc in services_to_check], from the [i]-th service on, with the
    rows added so far. *)
Fixpoint health_loop (self : MatrixClient) (i : nat) (services : list string)
    (table : list Row) : option (Uncaught + list Row) :=
  match services with
  | [] => Some (inr table)
  | svc :: rest =>
      match health_step self i svc with
      | None => None
      | Some (inl exn) => Some (inl exn)
      | Some (inr row) => health_loop self (S i) rest (table ++ [row])
      end
  end.

(** [health]: the rows of the table that is printed, or what ends the
    command before the table is printed. *)
Definition health (self : MatrixClient) (service : string)
    : option (Uncaught + list Row) :=
  health_loop self 0 (services_to_check service) [].

End Client.

(** The results of an attempt after which the loop goes round again: the
    faults the specification calls transient. *)
Definition transient (x : httpx.TransportError + httpx.Response) : Prop :=
  x = inl httpx.ConnectError ∨ x = inl httpx.TimeoutException.

(** ** Sample objects

    Concrete instances of the open parts and of the inputs, used to run the
    definitions on examples. *)

Definition dquote : string := String (ascii_of_nat 34) "".

(** The body [{"detail": "bad field"}]. *)
Definition bad_field_body : string :=
  "{" +:+ dquote +:+ "detail" +:+ dquote +:+ ": "
      +:+ dquote +:+ "bad field" +:+ dquote +:+ "}".

(** The body [{"status":"ok"}]. *)
Definition status_ok_body : string :=
  "{" +:+ dquote +:+ "status" +:+ dquote +:+ ":"
      +:+ dquote +:+ "ok" +:+ dquote +:+ "}".

(** A decoder that knows the two bodies above and rejects the rest. *)
Definition sample_loads (body : string) : option Value :=
  if String.eqb body bad_field_body
  then Some (VDict {[ "detail" := VStr "bad field" ]})
  else if String.eqb body status_ok_body
  then Some (VDict {[ "status" := VStr "ok" ]})
  else None.

Definition sample_repr (v : Value) : string := "<object>".

Definition sample_status_text (r : httpx.Response) : string :=
  "HTTP status " +:+ pretty (httpx.status_code r).

Definition sample_config (retries : Z) (token : option string) : Config :=
  {| matrix_hub_url := "https://api.matrixhub.io";
     matrix_ai_url := "https://huggingface.co/spaces/agent-matrix/matrix-ai";
     matrix_guardian_url := "http://localhost:8080";
     api_token := token;
     timeout := 30;
     max_retries := retries;
     log_level := "INFO";
     log_json := false |}.

Definition sample_response (status : Z) (hs : list (string * string))
    (body : string) : httpx.Response :=
  {| httpx.status_code := status; httpx.headers := hs; httpx.content := body |}.

(** A transport on which every attempt has the same result. *)
Definition always (x : httpx.TransportError + httpx.Response) : httpx.Client :=
  λ _ _, x.

(** A transport whose first [k] attempts fail to connect and whose later
    attempts all have the result [x]. *)
Definition failing_first (k : nat) (x : httpx.TransportError + httpx.Response)
    : httpx.Client :=
  λ i _, if (i <? k)%nat then inl httpx.ConnectError else x.

Definition sample_client (retries : Z) (token : option string)
    (transport : httpx.Client) : MatrixClient :=
  {| config := sample_config retries token; client := transport |}.

Definition sample_url : string := "http://localhost:8080/health".

(** An HTTP-date, as a server may put it in [Retry-After]. *)
Definition sample_http_date : string := "Wed, 21 Oct 2015 07:28:00 GMT".

(** The body [{"detail": "<the hint>"}] of a server that answers with
    the text of the token hint, and a decoder that knows this body. *)
Definition hint_echo_body : string :=
  "{" +:+ dquote +:+ "detail" +:+ dquote +:+ ": "
      +:+ dquote +:+ token_hint +:+ dquote +:+ "}".

Definition hint_echo_loads (body : string) : option Value :=
  if String.eqb body hint_echo_body
  then Some (VDict {[ "detail" := VStr token_hint ]})
  else None.

(** A transport whose answer depends on the URL alone. *)
Definition by_url (answer : string → httpx.TransportError + httpx.Response)
    : httpx.Client :=
  λ _ req, answer (httpx.url req).

(** Three services: the hub answers 200 with [{"status":"ok"}], the AI
    service 404, the guardian 200 with no body. *)
Definition sample_services : httpx.Client :=
  by_url (λ u,
    if String.eqb u "https://api.matrixhub.io/health"
    then inr (sample_response 200 [] status_ok_body)
    else if String.eqb u "https://huggingface.co/spaces/agent-matrix/matrix-ai/health"
    then inr (sample_response 404 [] "gone")
    else inr (sample_response 200 [] "")).

(** The same, with a hub that answers 500 and a page of text. *)
Definition sample_services_hub_down : httpx.Client :=
  by_url (λ u,
    if String.eqb u "https://api.matrixhub.io/health"
    then inr (sample_response 500 [] "Internal Server Error")
    else inr (sample_response 200 [] "")).

Definition sample_duration_text (i : nat) : string := "12.34ms".

(** An environment that is the token it sets, and a loader that fails on
    the empty one. *)
Definition sample_load (env : string) : option Config :=
  if String.eqb env "" then None else Some (sample_config 3 (Some env)).

(** * Properties *)

(** ** Text *)

Lemma string_app_assoc (a b c : string) : (a +:+ b) +:+ c = a +:+ (b +:+ c).
Proof.
  induction a as [|x a IH]; [reflexivity |].
  change (String x ((a +:+ b) +:+ c) = String x (a +:+ (b +:+ c))).
  by rewrite IH.
Qed.

Lemma string_app_nil_r (a : string) : a +:+ "" = a.
Proof.
  induction a as [|x a IH]; [reflexivity |].
  change (String x (a +:+ "") = String x a). by rewrite IH.
Qed.

Lemma is_prefix_true (p s : string) :
  is_prefix p s = true ↔ ∃ post, s = p +:+ post.
Proof.
  revert s. induction p as [|a p IH]; intros s.
  - simpl. split; [intros _; by exists s | done].
  - destruct s as [|b s]; simpl.
    + split; [done | intros [post H]; discriminate H].
    + rewrite andb_true_iff, IH. split.
      * intros [Hab [post ->]]. apply Ascii.eqb_eq in Hab as ->. by exists post.
      * intros [post H]. injection H as -> ->. split; [apply Ascii.eqb_refl | by exists post].
Qed.

Lemma containsb_true (sub s : string) :
  containsb sub s = true ↔ contains sub s.
Proof.
  induction s as [|c s IH].
  - simpl. rewrite orb_false_r, is_prefix_true. split.
    + intros [post H]. by exists "", post.
    + intros (pre & post & H). destruct pre; [by exists post | discriminate H].
  - cbn [containsb]. rewrite orb_true_iff, is_prefix_true, IH. split.
    + intros [[post H] | (pre & post & H)].
      * by exists "", post.
      * exists (String c pre), post. simpl. by rewrite H.
    + intros (pre & post & H). destruct pre as [|c' pre].
      * left. by exists post.
      * right. simpl in H. injection H as _ H. by exists pre, post.
Qed.

Lemma containsb_false (sub s : string) :
  containsb sub s = false → ¬ contains sub s.
Proof. intros Hb Hc. apply containsb_true in Hc. congruence. Qed.


(** ** Header lookup and truth values *)

Lemma truthy_str_Some (s : string) : s ≠ "" → truthy_str (Some s) = true.
Proof.
  intros Hs. unfold truthy_str. destruct (String.eqb_spec s ""); [done | reflexivity].
Qed.

(** Unfolding the classifier, the inner [try] and one attempt down to the
    monad's operations. *)
Ltac run_handler :=
  unfold _handle_response, try_except, raise_for_status, bind,
    raise, ret, log, local, int, json, httpx.is_error.

Ltac run_error_details := unfold error_details.

Ltac run_attempt := unfold attempt, bind, client_request.

Section Properties.

Context (json_loads : string → option Value).
Context (py_repr : Value → string).
Context (status_error_str : httpx.Response → string).

Abbreviation _handle_response := (_handle_response json_loads py_repr status_error_str).
Abbreviation error_details := (error_details json_loads status_error_str).
Abbreviation attempt := (attempt json_loads py_repr status_error_str).
Abbreviation retry_loop := (retry_loop json_loads py_repr status_error_str).
Abbreviation request := (request json_loads py_repr status_error_str).
Abbreviation str := (str py_repr).

Implicit Types (self : MatrixClient) (r : httpx.Response) (t : Trace).
Implicit Types (req : httpx.Request).

(** *** What the inner [try] leaves behind *)

Lemma error_details_undecodable r :
  json_loads (httpx.content r) = None →
  error_details r = (None, VStr (status_error_str r)).
Proof. intros H. run_error_details. by rewrite H. Qed.

Lemma error_details_dict r d :
  json_loads (httpx.content r) = Some (VDict d) →
  error_details r =
    (Some (VDict d), default (VStr (status_error_str r)) (d !! "detail")).
Proof. intros H. run_error_details. by rewrite H. Qed.

(** *** The classifier, branch by branch *)

Lemma handle_response_success r self t :
  httpx.status_code r < 400 →
  _handle_response self r t =
    (if String.eqb (httpx.content r) "" then Return (VDict ∅)
     else match json_loads (httpx.content r) with
          | Some v => Return v
          | None => Raise JSONDecodeError
          end, t).
Proof.
  intros Hs. run_handler.
  replace (400 <=? httpx.status_code r) with false by lia.
  destruct (String.eqb (httpx.content r) ""); simpl; [reflexivity |].
  by destruct (json_loads (httpx.content r)).
Qed.

Lemma handle_response_auth r self t :
  httpx.status_code r = 401 ∨ httpx.status_code r = 403 →
  _handle_response self r t =
    (Raise (Matrix (MatrixAuthError__init__
       (VStr (str (error_details r).2 +:+
              if truthy_str (api_token (config self)) then "" else token_hint))
       (httpx.status_code r))),
     logging ERROR "http_error" t).
Proof.
  intros Hs. run_handler.
  replace (400 <=? httpx.status_code r) with true by lia. simpl.
  destruct (error_details r) as [data msg]; simpl.
  replace ((httpx.status_code r =? 401) || (httpx.status_code r =? 403))
    with true by (destruct Hs as [-> | ->]; reflexivity).
  by destruct (truthy_str (api_token (config self))).
Qed.

Lemma handle_response_not_found r self t :
  httpx.status_code r = 404 →
  _handle_response self r t =
    (Raise (Matrix (MatrixNotFoundError__init__ (error_details r).2 404)),
     logging ERROR "http_error" t).
Proof.
  intros Hs. run_handler. rewrite Hs; simpl; rewrite Hs; simpl.
  by destruct (error_details r) as [data msg].
Qed.

Lemma handle_response_validation r self t :
  httpx.status_code r = 422 →
  _handle_response self r t =
    (match (error_details r).1 with
     | Some data =>
         Raise (Matrix (MatrixValidationError__init__
                          (error_details r).2 422 (Some data)))
     | None => Raise (UnboundLocalError "error_data")
     end, logging ERROR "http_error" t).
Proof.
  intros Hs. run_handler. rewrite Hs; simpl; rewrite Hs; simpl.
  by destruct (error_details r) as [[data|] msg].
Qed.

Lemma handle_response_rate_limit r self t :
  httpx.status_code r = 429 →
  _handle_response self r t =
    (match httpx.get (httpx.headers r) "Retry-After" with
     | Some text =>
         if truthy_str (Some text) then
           match python_int text with
           | Some n =>
               Raise (Matrix (MatrixRateLimitError__init__
                                (error_details r).2 429 (Some n)))
           | None => Raise ValueError
           end
         else Raise (Matrix (MatrixRateLimitError__init__
                               (error_details r).2 429 None))
     | None => Raise (Matrix (MatrixRateLimitError__init__
                                (error_details r).2 429 None))
     end, logging ERROR "http_error" t).
Proof.
  intros Hs. run_handler. rewrite Hs; simpl; rewrite Hs; simpl.
  destruct (error_details r) as [data msg]; simpl.
  destruct (httpx.get (httpx.headers r) "Retry-After") as [text|]; [| reflexivity].
  unfold truthy_str. destruct (negb (String.eqb text "")); [| reflexivity].
  by destruct (python_int text).
Qed.

Lemma handle_response_other r self t :
  400 ≤ httpx.status_code r →
  httpx.status_code r ∉ [401; 403; 404; 422; 429] →
  _handle_response self r t =
    (match (error_details r).1 with
     | Some data =>
         Raise (Matrix (MatrixAPIError__init__ MatrixAPIError
                          (error_details r).2 (Some (httpx.status_code r))
                          (Some data)))
     | None => Raise (UnboundLocalError "error_data")
     end, logging ERROR "http_error" t).
Proof.
  intros Hs Hno. run_handler.
  replace (400 <=? httpx.status_code r) with true by lia.
  assert (httpx.status_code r ≠ 401 ∧ httpx.status_code r ≠ 403 ∧
          httpx.status_code r ≠ 404 ∧ httpx.status_code r ≠ 422 ∧
          httpx.status_code r ≠ 429) as (H1 & H2 & H3 & H4 & H5).
  { repeat split; intros E; apply Hno; rewrite E; set_solver. }
  destruct (error_details r) as [data msg]; simpl.
  replace (httpx.status_code r =? 401) with false by lia.
  replace (httpx.status_code r =? 403) with false by lia.
  replace (httpx.status_code r =? 404) with false by lia.
  replace (httpx.status_code r =? 422) with false by lia.
  replace (httpx.status_code r =? 429) with false by lia.
  by destruct data.
Qed.

(** The classifier hands nothing to the transport, and whatever it raises
    is not a transport error. *)
Lemma handle_response_outcome r self t :
  ∃ o t', _handle_response self r t = (o, t') ∧ sent t' = sent t ∧
          ∀ e, o ≠ Raise (Transport e).
Proof.
  destruct (Z_lt_dec (httpx.status_code r) 400) as [Hlt | Hge].
  { rewrite handle_response_success by done.
    destruct (String.eqb (httpx.content r) "");
      [| destruct (json_loads (httpx.content r))];
      eexists _, _; split_and!; done. }
  destruct (decide (httpx.status_code r = 401 ∨ httpx.status_code r = 403))
    as [Hauth | Hauth].
  { rewrite handle_response_auth by done. eexists _, _; split_and!; done. }
  destruct (decide (httpx.status_code r = 404)) as [H404 | H404].
  { rewrite handle_response_not_found by done. eexists _, _; split_and!; done. }
  destruct (decide (httpx.status_code r = 422)) as [H422 | H422].
  { rewrite handle_response_validation by done.
    destruct (error_details r).1; eexists _, _; split_and!; done. }
  destruct (decide (httpx.status_code r = 429)) as [H429 | H429].
  { rewrite handle_response_rate_limit by done.
    destruct (httpx.get (httpx.headers r) "Retry-After") as [text|];
      [destruct (truthy_str (Some text)); [destruct (python_int text) |] |];
      eexists _, _; split_and!; done. }
  rewrite handle_response_other; [| lia |].
  2:{ rewrite !not_elem_of_cons. split_and!; [tauto.. | apply not_elem_of_nil]. }
  destruct (error_details r).1; eexists _, _; split_and!; done.
Qed.

(** *** One attempt *)

Lemma attempt_received self req t r :
  client self (attempts t) req = inr r →
  attempt self req t = _handle_response self r (sending req t).
Proof.
  intros H. run_attempt. by rewrite H.
Qed.

Lemma attempt_failed self req t e :
  client self (attempts t) req = inl e →
  attempt self req t = (Raise (Transport e), sending req t).
Proof.
  intros H. run_attempt. by rewrite H.
Qed.

(** *** One round of the loop *)

(** A received response ends the loop with the classifier's outcome. *)
Lemma retry_loop_received self req fuel retries last t r :
  retries ≤ max_retries (config self) →
  client self (attempts t) req = inr r →
  ∃ t', retry_loop self req (S fuel) retries last t =
          Some ((_handle_response self r (sending req t)).1, t') ∧
        sent t' = sent t ++ [req].
Proof.
  intros Hle Hr. simpl.
  replace (retries <=? max_retries (config self)) with true by lia.
  rewrite (attempt_received _ _ _ _ Hr).
  destruct (handle_response_outcome r self (sending req t))
    as (o & t1 & -> & Hsent & Hnt). simpl in Hsent. simpl.
  destruct o as [v | e]; [by eexists |].
  destruct e as [e | | | | | m]; try by eexists.
  - by destruct (Hnt e).
  - destruct (cls m); try by eexists.
    destruct (truthy_int (retry_after m)); by eexists.
Qed.

(** A failure to connect either exhausts the budget or leads to the next
    round. *)
Lemma retry_loop_connect_error self req fuel retries last t :
  retries ≤ max_retries (config self) →
  client self (attempts t) req = inl httpx.ConnectError →
  retry_loop self req (S fuel) retries last t =
    let t2 := logging WARNING "connection_error" (sending req t) in
    if retries + 1 >? max_retries (config self) then
      Some (Raise (Matrix (MatrixConnectionError__init__
              (connection_message (httpx.url req) (retries + 1)))), t2)
    else retry_loop self req fuel (retries + 1)
           (Some (Transport httpx.ConnectError)) t2.
Proof.
  intros Hle He. simpl.
  replace (retries <=? max_retries (config self)) with true by lia.
  by rewrite (attempt_failed _ _ _ _ He).
Qed.

(** So does a timeout. *)
Lemma retry_loop_timeout self req fuel retries last t :
  retries ≤ max_retries (config self) →
  client self (attempts t) req = inl httpx.TimeoutException →
  retry_loop self req (S fuel) retries last t =
    let t2 := logging WARNING "timeout_error" (sending req t) in
    if retries + 1 >? max_retries (config self) then
      Some (Raise (Matrix (MatrixTimeoutError__init__
              (timeout_message self (httpx.url req)))), t2)
    else retry_loop self req fuel (retries + 1)
           (Some (Transport httpx.TimeoutException)) t2.
Proof.
  intros Hle He. simpl.
  replace (retries <=? max_retries (config self)) with true by lia.
  by rewrite (attempt_failed _ _ _ _ He).
Qed.

(** Any other transport error is raised as it is. *)
Lemma retry_loop_other_error self req fuel retries last t c :
  retries ≤ max_retries (config self) →
  client self (attempts t) req = inl (httpx.OtherError c) →
  retry_loop self req (S fuel) retries last t =
    Some (Raise (Transport (httpx.OtherError c)), sending req t).
Proof.
  intros Hle He. simpl.
  replace (retries <=? max_retries (config self)) with true by lia.
  by rewrite (attempt_failed _ _ _ _ He).
Qed.

(** *** Several rounds *)

(** [k] transient faults in a row, with budget left after them, take the
    loop [k] rounds further and send the request [k] times. *)
Lemma retry_loop_skip self req k :
  ∀ fuel retries last t,
    retries + Z.of_nat k ≤ max_retries (config self) →
    (∀ i, (i < k)%nat → transient (client self (attempts t + i)%nat req)) →
    ∃ last' t',
      retry_loop self req (k + fuel) retries last t =
        retry_loop self req fuel (retries + Z.of_nat k) last' t' ∧
      sent t' = sent t ++ replicate k req.
Proof.
  induction k as [|k IH]; intros fuel retries last t Hle Hk.
  - exists last, t. by rewrite Z.add_0_r, app_nil_r.
  - assert (transient (client self (attempts t) req)) as H0.
    { rewrite <- (Nat.add_0_r (attempts t)). apply Hk. lia. }
    assert (∀ lvl event last2,
              let t2 := logging lvl event (sending req t) in
              ∃ last' t',
                retry_loop self req (k + fuel) (retries + 1) last2 t2 =
                  retry_loop self req fuel (retries + Z.of_nat (S k)) last' t' ∧
                sent t' = sent t ++ replicate (S k) req) as Hnext.
    { intros lvl event last2 t2.
      destruct (IH fuel (retries + 1) last2 t2) as (last' & t' & Heq & Hsent).
      - lia.
      - intros i Hi.
        replace (attempts t2 + i)%nat with (attempts t + S i)%nat
          by (unfold t2, attempts; simpl; rewrite length_app; simpl; lia).
        apply Hk. lia.
      - exists last', t'. rewrite Heq. split.
        + f_equal. lia.
        + rewrite Hsent. unfold t2. simpl. by rewrite <- app_assoc. }
    change (S k + fuel)%nat with (S (k + fuel)).
    assert (retries ≤ max_retries (config self)) as Hle0 by lia.
    destruct H0 as [H0 | H0].
    + rewrite (retry_loop_connect_error _ _ _ _ _ _ Hle0 H0). cbv zeta.
      replace (retries + 1 >? max_retries (config self)) with false by lia.
      apply Hnext.
    + rewrite (retry_loop_timeout _ _ _ _ _ _ Hle0 H0). cbv zeta.
      replace (retries + 1 >? max_retries (config self)) with false by lia.
      apply Hnext.
Qed.

(** With enough fuel the loop always ends.  It sends the same request
    each time, at least once when it is entered and at most once per unit
    of budget, and every attempt but the last met a transient fault. *)
Lemma retry_loop_runs self req fuel :
  ∀ retries last t,
    (Z.to_nat (max_retries (config self) - retries) < fuel)%nat →
    ∃ res t' k,
      retry_loop self req fuel retries last t = Some (res, t') ∧
      sent t' = sent t ++ replicate k req ∧
      (k ≤ Z.to_nat (max_retries (config self) - retries + 1))%nat ∧
      (retries ≤ max_retries (config self) → (1 ≤ k)%nat) ∧
      (∀ i, (S i < k)%nat → transient (client self (attempts t + i)%nat req)).
Proof.
  induction fuel as [|fuel IH]; intros retries last t Hfuel; [lia |].
  destruct (Z_le_gt_dec retries (max_retries (config self))) as [Hle | Hgt].
  2:{ simpl. replace (retries <=? max_retries (config self)) with false by lia.
      destruct last; eexists _, t, 0%nat;
        (split_and!; [done | by rewrite app_nil_r | lia | lia | lia]). }
  assert (∀ res t', sent t' = sent t ++ [req] →
            retry_loop self req (S fuel) retries last t = Some (res, t') →
            ∃ res t' k,
              retry_loop self req (S fuel) retries last t = Some (res, t') ∧
              sent t' = sent t ++ replicate k req ∧
              (k ≤ Z.to_nat (max_retries (config self) - retries + 1))%nat ∧
              (retries ≤ max_retries (config self) → (1 ≤ k)%nat) ∧
              (∀ i, (S i < k)%nat →
                    transient (client self (attempts t + i)%nat req))) as Hone.
  { intros res t' Hsent Heq. exists res, t', 1%nat.
    split_and!; [done | done | lia | lia | lia]. }
  assert (∀ lvl event last2,
            transient (client self (attempts t) req) →
            retries + 1 ≤ max_retries (config self) →
            let t2 := logging lvl event (sending req t) in
            ∃ res t' k,
              retry_loop self req fuel (retries + 1) last2 t2 = Some (res, t') ∧
              sent t' = sent t ++ replicate k req ∧
              (k ≤ Z.to_nat (max_retries (config self) - retries + 1))%nat ∧
              (retries ≤ max_retries (config self) → (1 ≤ k)%nat) ∧
              (∀ i, (S i < k)%nat →
                    transient (client self (attempts t + i)%nat req))) as Hmore.
  { intros lvl event last2 Htr Hle2 t2.
    destruct (IH (retries + 1) last2 t2) as (res & t' & k & Heq & Hsent & Hk & H1 & Hpre).
    { lia. }
    exists res, t', (S k). split_and!.
    - done.
    - rewrite Hsent. unfold t2. simpl. by rewrite <- app_assoc.
    - lia.
    - lia.
    - intros [|i] Hi.
      + by rewrite Nat.add_0_r.
      + replace (attempts t + S i)%nat with (attempts t2 + i)%nat
          by (unfold t2, attempts; simpl; rewrite length_app; simpl; lia).
        apply Hpre. lia. }
  destruct (client self (attempts t) req) as [[| |c] | r] eqn:Hc.
  - rewrite (retry_loop_connect_error _ _ _ _ _ _ Hle Hc). cbv zeta.
    destruct (Z_gt_le_dec (retries + 1) (max_retries (config self))) as [Hx | Hx].
    + rewrite retry_loop_connect_error in Hone by done. cbv zeta in Hone.
      replace (retries + 1 >? max_retries (config self)) with true in * by lia.
      eapply Hone; [| reflexivity]; done.
    + replace (retries + 1 >? max_retries (config self)) with false by lia.
      apply Hmore; [by left | done].
  - rewrite (retry_loop_timeout _ _ _ _ _ _ Hle Hc). cbv zeta.
    destruct (Z_gt_le_dec (retries + 1) (max_retries (config self))) as [Hx | Hx].
    + rewrite retry_loop_timeout in Hone by done. cbv zeta in Hone.
      replace (retries + 1 >? max_retries (config self)) with true in * by lia.
      eapply Hone; [| reflexivity]; done.
    + replace (retries + 1 >? max_retries (config self)) with false by lia.
      apply Hmore; [by right | done].
  - eapply Hone; [| by apply retry_loop_other_error]; done.
  - destruct (retry_loop_received self req fuel retries last t r Hle Hc)
      as (t' & Heq & Hsent).
    eapply Hone; [| exact Heq]; done.
Qed.

(** *** The whole call *)

Lemma request_unfold self method url headers kwargs :
  request self method url headers kwargs =
    retry_loop self (outgoing self method url headers kwargs)
      (S (Z.to_nat (max_retries (config self)))) 0 None
      (logging DEBUG "http_request" empty_trace).
Proof. reflexivity. Qed.

(** After [n] transient faults with [max_retries = n], the call stands
    before its last round. *)
Lemma request_after_faults self method url headers kwargs (n : nat) :
  max_retries (config self) = Z.of_nat n →
  (∀ i, (i < n)%nat →
        transient (client self i (outgoing self method url headers kwargs))) →
  ∃ last t',
    request self method url headers kwargs =
      retry_loop self (outgoing self method url headers kwargs) 1
        (Z.of_nat n) last t' ∧
    attempts t' = n.
Proof.
  intros Hmax Hfaults. rewrite request_unfold, Hmax, Nat2Z.id.
  destruct (retry_loop_skip self (outgoing self method url headers kwargs) n
              1 0 None (logging DEBUG "http_request" empty_trace))
    as (last & t' & Heq & Hsent).
  - lia.
  - intros i Hi. by apply Hfaults.
  - exists last, t'. replace (S n) with (n + 1)%nat by lia.
    rewrite Heq, Z.add_0_l. split; [done |].
    unfold attempts. rewrite Hsent. simpl. by rewrite length_replicate.
Qed.

(** The call always ends; what it tells about the attempts made. *)
Lemma request_runs self method url headers kwargs :
  ∃ res t k,
    request self method url headers kwargs = Some (res, t) ∧
    sent t = replicate k (outgoing self method url headers kwargs) ∧
    (k ≤ Z.to_nat (max_retries (config self) + 1))%nat ∧
    (0 ≤ max_retries (config self) → (1 ≤ k)%nat) ∧
    (∀ i, (S i < k)%nat →
          transient (client self i (outgoing self method url headers kwargs))).
Proof.
  rewrite request_unfold.
  destruct (retry_loop_runs self (outgoing self method url headers kwargs)
              (S (Z.to_nat (max_retries (config self)))) 0 None
              (logging DEBUG "http_request" empty_trace))
    as (res & t & k & Heq & Hsent & Hk & H1 & Hpre).
  { rewrite Z.sub_0_r. lia. }
  exists res, t, k. rewrite Z.sub_0_r in Hk. split_and!; done.
Qed.

(** A response received on the first attempt decides the call. *)
Lemma request_first_received self method url headers kwargs r :
  0 ≤ max_retries (config self) →
  client self 0%nat (outgoing self method url headers kwargs) = inr r →
  ∃ t, request self method url headers kwargs =
         Some ((_handle_response self r
                  (sending (outgoing self method url headers kwargs)
                     (logging DEBUG "http_request" empty_trace))).1, t) ∧
       attempts t = 1%nat.
Proof.
  intros Hmax Hr. rewrite request_unfold.
  destruct (retry_loop_received self (outgoing self method url headers kwargs)
              (Z.to_nat (max_retries (config self))) 0 None
              (logging DEBUG "http_request" empty_trace) r Hmax Hr)
    as (t & Heq & Hsent).
  exists t. split; [done |]. unfold attempts. by rewrite Hsent.
Qed.

(** *** The injected headers *)

Lemma get_headers_fixed self :
  _get_headers self !! "Content-Type" = Some "application/json" ∧
  _get_headers self !! "Accept" = Some "application/json" ∧
  _get_headers self !! "User-Agent" = Some "matrix-system/1.0.0".
Proof.
  unfold _get_headers.
  destruct (api_token (config self)) as [token|];
    [destruct (truthy_str (Some token)) |]; by simplify_map_eq.
Qed.

Lemma get_headers_authorization self :
  _get_headers self !! "Authorization" =
    match api_token (config self) with
    | Some token =>
        if truthy_str (Some token) then Some ("Bearer " +:+ token) else None
    | None => None
    end.
Proof.
  unfold _get_headers.
  destruct (api_token (config self)) as [token|];
    [destruct (truthy_str (Some token)) |]; by simplify_map_eq.
Qed.

Lemma get_headers_other self (k : string) :
  k ∉ ["Content-Type"; "Accept"; "User-Agent"; "Authorization"] →
  _get_headers self !! k = None.
Proof.
  rewrite !not_elem_of_cons. intros (? & ? & ? & ? & _).
  unfold _get_headers.
  destruct (api_token (config self)) as [token|];
    [destruct (truthy_str (Some token)) |]; by simplify_map_eq.
Qed.

(** ** The claims of the specification *)

(** C1.  With [max_retries = n >= 0]: if every attempt fails to connect, the
    call makes exactly [n + 1] attempts and raises an error of class
    [MatrixConnectionError], without status, whose message names the URL
    and the [n + 1] attempts; if the first [n] attempts fail to connect and
    attempt [n + 1] receives a response with status below 400, the call
    returns the decoded payload; with [max_retries = 0] exactly one attempt
    is made, whatever the transport does. *)
Theorem retry_budget_attempts self method url headers kwargs (n : nat) :
  max_retries (config self) = Z.of_nat n →
  let req := outgoing self method url headers kwargs in
  ((∀ i, (i ≤ n)%nat → client self i req = inl httpx.ConnectError) →
   ∃ e t, request self method url headers kwargs = Some (Raise (Matrix e), t) ∧
          cls e = MatrixConnectionError ∧
          message e = VStr ("Failed to connect to " +:+ url +:+ " after "
                            +:+ pretty (Z.of_nat n + 1) +:+ " attempts") ∧
          status_code e = None ∧
          attempts t = S n) ∧
  (∀ r payload,
     (∀ i, (i < n)%nat → client self i req = inl httpx.ConnectError) →
     client self n req = inr r →
     httpx.status_code r < 400 →
     (httpx.content r = "" ∧ payload = VDict ∅ ∨
      httpx.content r ≠ "" ∧ json_loads (httpx.content r) = Some payload) →
     ∃ t, request self method url headers kwargs = Some (Return payload, t) ∧
          attempts t = S n) ∧
  (n = 0%nat →
   ∃ res t, request self method url headers kwargs = Some (res, t) ∧
            attempts t = 1%nat).
Proof.
  intros Hmax req. subst req. split_and!.
  - intros Hfail.
    destruct (request_after_faults self method url headers kwargs n Hmax)
      as (last & t' & -> & Hn).
    { intros i Hi. left. apply Hfail. lia. }
    rewrite retry_loop_connect_error; [| lia | rewrite Hn; apply Hfail; lia].
    cbv zeta. replace (Z.of_nat n + 1 >? max_retries (config self)) with true by lia.
    eexists _, _. split; [reflexivity |].
    split_and!; [reflexivity | reflexivity | reflexivity |].
    unfold attempts in *. simpl. rewrite length_app, Hn. simpl. lia.
  - intros r payload Hfail Hr Hstatus Hbody.
    destruct (request_after_faults self method url headers kwargs n Hmax)
      as (last & t' & -> & Hn).
    { intros i Hi. left. by apply Hfail. }
    destruct (retry_loop_received self (outgoing self method url headers kwargs)
                0 (Z.of_nat n) last t' r)
      as (t & Heq & Hsent); [lia | by rewrite Hn |].
    exists t. split.
    + rewrite Heq, handle_response_success by done. simpl.
      destruct Hbody as [[-> ->] | [Hne ->]]; [done |].
      by destruct (String.eqb_spec (httpx.content r) "").
    + unfold attempts in *. rewrite Hsent, length_app, Hn. simpl. lia.
  - intros ->.
    destruct (request_runs self method url headers kwargs)
      as (res & t & k & Heq & Hsent & Hk & H1 & _).
    exists res, t. split; [done |].
    unfold attempts. rewrite Hsent, length_replicate.
    rewrite Hmax in Hk, H1. simpl in Hk. specialize (H1 ltac:(done)). lia.
Qed.

(** C2.  Whatever budget is left, a received response ends the loop with
    the outcome of the classifier after exactly that attempt; over a whole
    call, every attempt that was followed by another one met a connect
    failure or a timeout, and no attempt follows a received response. *)
Theorem received_response_is_terminal self method url headers kwargs :
  let req := outgoing self method url headers kwargs in
  (∀ fuel retries last t r,
     retries ≤ max_retries (config self) →
     client self (attempts t) req = inr r →
     ∃ t', retry_loop self req (S fuel) retries last t =
             Some ((_handle_response self r (sending req t)).1, t') ∧
           attempts t' = S (attempts t)) ∧
  (∃ res t,
     request self method url headers kwargs = Some (res, t) ∧
     (∀ i, (S i < attempts t)%nat → transient (client self i req)) ∧
     (∀ i r, client self i req = inr r → (attempts t ≤ S i)%nat)).
Proof.
  intros req. split.
  - intros fuel retries last t r Hle Hr.
    destruct (retry_loop_received self req fuel retries last t r Hle Hr)
      as (t' & Heq & Hsent).
    exists t'. split; [done |].
    unfold attempts. rewrite Hsent, length_app. simpl. lia.
  - destruct (request_runs self method url headers kwargs)
      as (res & t & k & Heq & Hsent & _ & _ & Hpre).
    assert (attempts t = k) as Hk.
    { unfold attempts. by rewrite Hsent, length_replicate. }
    exists res, t. rewrite Hk. split_and!; [done | done |].
    intros i r Hr. destruct (decide (S i < k)%nat) as [Hlt | Hge]; [| lia].
    destruct (Hpre i Hlt) as [H | H]; fold req in H; congruence.
Qed.

(** C3.  What the code does with an error response whose body is not JSON
    and whose status is 422 or any status from 400 on other than 401, 403,
    404 and 429: reading [error_data], which the failed [json()] left
    unassigned, raises [UnboundLocalError]; no [MatrixValidationError] or
    [MatrixAPIError] is built. *)
Theorem non_json_error_body_unbound_local self r t :
  400 ≤ httpx.status_code r →
  httpx.status_code r ∉ [401; 403; 404; 429] →
  json_loads (httpx.content r) = None →
  (error_details r).2 = VStr (status_error_str r) ∧
  (_handle_response self r t).1 = Raise (UnboundLocalError "error_data").
Proof.
  intros Hge Hno Hbody. rewrite (error_details_undecodable r Hbody).
  split; [done |].
  destruct (decide (httpx.status_code r = 422)) as [H422 | H422].
  - by rewrite handle_response_validation, error_details_undecodable.
  - rewrite handle_response_other, error_details_undecodable; [done.. |].
    rewrite !not_elem_of_cons in Hno. rewrite !not_elem_of_cons.
    destruct Hno as (? & ? & ? & ? & ?). split_and!; done.
Qed.

(** C4, as amended.  With [max_retries = n] and transient faults on all
    [n + 1] attempts: if the last fault is a connect failure, the call
    raises a [MatrixConnectionError] whose message contains the number of
    attempts made; if it is a timeout, the call raises a
    [MatrixTimeoutError] whose message names the configured timeout in
    seconds. *)
Theorem exhausted_budget_messages self method url headers kwargs (n : nat) :
  max_retries (config self) = Z.of_nat n →
  let req := outgoing self method url headers kwargs in
  (∀ i, (i < n)%nat → transient (client self i req)) →
  (client self n req = inl httpx.ConnectError →
   ∃ m t, request self method url headers kwargs =
            Some (Raise (Matrix (MatrixConnectionError__init__ (VStr m))), t) ∧
          attempts t = S n ∧
          contains (pretty (Z.of_nat (attempts t))) m) ∧
  (client self n req = inl httpx.TimeoutException →
   ∃ m t, request self method url headers kwargs =
            Some (Raise (Matrix (MatrixTimeoutError__init__ (VStr m))), t) ∧
          attempts t = S n ∧
          m = "Request to " +:+ url +:+ " timed out after "
                +:+ pretty (timeout (config self)) +:+ "s" ∧
          contains (pretty (timeout (config self))) m).
Proof.
  intros Hmax req Hfaults. subst req.
  destruct (request_after_faults self method url headers kwargs n Hmax Hfaults)
    as (last & t' & -> & Hn).
  split; intros Hlast.
  - rewrite retry_loop_connect_error; [| lia | by rewrite Hn].
    cbv zeta. replace (Z.of_nat n + 1 >? max_retries (config self)) with true by lia.
    eexists _, _. split; [reflexivity |].
    assert (attempts (logging WARNING "connection_error"
              (sending (outgoing self method url headers kwargs) t')) = S n) as Ha.
    { unfold attempts in *. simpl. rewrite length_app, Hn. simpl. lia. }
    split; [done |]. rewrite Ha.
    replace (Z.of_nat n + 1) with (Z.of_nat (S n)) by lia.
    exists ("Failed to connect to " +:+ url +:+ " after "), " attempts".
    simpl. by rewrite !string_app_assoc.
  - rewrite retry_loop_timeout; [| lia | by rewrite Hn].
    cbv zeta. replace (Z.of_nat n + 1 >? max_retries (config self)) with true by lia.
    eexists _, _. split; [reflexivity |]. split_and!.
    + unfold attempts in *. simpl. rewrite length_app, Hn. simpl. lia.
    + reflexivity.
    + exists ("Request to " +:+ url +:+ " timed out after "), "s".
      simpl. by rewrite !string_app_assoc.
Qed.

(** C5, as amended.  A response with status 401 or 403 is classified as
    a [MatrixAuthError] with that status.  Its message is the extracted
    message followed by the hint when no token is configured, and the
    extracted message alone when one is; so, whenever the extracted message
    does not itself contain the text of the hint, the message contains the
    hint if and only if no token is configured. *)
Theorem auth_failure_hint self r t :
  httpx.status_code r = 401 ∨ httpx.status_code r = 403 →
  let hint :=
    " (token missing: set MATRIX_HUB_TOKEN / MATRIX_TOKEN / API_TOKEN for operator/admin endpoints like install/remotes/ingest)" in
  let extracted := str (error_details r).2 in
  ∃ e text,
    (_handle_response self r t).1 = Raise (Matrix e) ∧
    cls e = MatrixAuthError ∧
    status_code e = Some (httpx.status_code r) ∧
    message e = VStr text ∧
    (truthy_str (api_token (config self)) = false → text = extracted +:+ hint) ∧
    (truthy_str (api_token (config self)) = true → text = extracted) ∧
    (¬ contains hint extracted →
     (contains hint text ↔ truthy_str (api_token (config self)) = false)).
Proof.
  intros Hs hint extracted. rewrite handle_response_auth by done.
  change token_hint with hint. fold extracted.
  destruct (truthy_str (api_token (config self))).
  - exists (MatrixAuthError__init__ (VStr (extracted +:+ "")) (httpx.status_code r)),
      extracted.
    rewrite string_app_nil_r. split_and!; [done.. |].
    intros Hclean. split; [intros Hc; by destruct Hclean | done].
  - exists (MatrixAuthError__init__ (VStr (extracted +:+ hint)) (httpx.status_code r)),
      (extracted +:+ hint).
    split_and!; [done.. |].
    intros _. split; [done | intros _].
    exists extracted, "". by rewrite string_app_nil_r.
Qed.

(** C6.  A response with status 422 whose body is [{"detail": "bad field"}]
    is classified as a [MatrixValidationError] with message ["bad field"]
    whose [response_data] is the decoded body. *)
Theorem validation_failure_bad_field self r t :
  httpx.status_code r = 422 →
  httpx.content r = bad_field_body →
  json_loads bad_field_body = Some (VDict {[ "detail" := VStr "bad field" ]}) →
  ∃ e, (_handle_response self r t).1 = Raise (Matrix e) ∧
       cls e = MatrixValidationError ∧
       message e = VStr "bad field" ∧
       status_code e = Some 422 ∧
       response_data e = VDict {[ "detail" := VStr "bad field" ]}.
Proof.
  intros Hs Hbody Hjson. rewrite <- Hbody in Hjson.
  rewrite handle_response_validation by done.
  rewrite (error_details_dict r _ Hjson). simpl.
  eexists. split; [reflexivity |]. split_and!; reflexivity.
Qed.

(** C7.  A response with status 429 is classified as a
    [MatrixRateLimitError]: with [Retry-After: 7] its [retry_after] is 7,
    without the header it has none; and a call that receives such a
    response on its first attempt raises that error after exactly one
    attempt, whatever [max_retries >= 0] allows. *)
Theorem rate_limit_retry_after self r (seconds : option Z) :
  httpx.status_code r = 429 →
  httpx.get (httpx.headers r) "Retry-After" = Some "7" ∧ seconds = Some 7 ∨
  httpx.get (httpx.headers r) "Retry-After" = None ∧ seconds = None →
  ∃ e, cls e = MatrixRateLimitError ∧
       retry_after e = seconds ∧
       (∀ t, _handle_response self r t =
             (Raise (Matrix e), logging ERROR "http_error" t)) ∧
       (∀ method url headers kwargs,
          0 ≤ max_retries (config self) →
          client self 0%nat (outgoing self method url headers kwargs) = inr r →
          ∃ t, request self method url headers kwargs =
                 Some (Raise (Matrix e), t) ∧
               attempts t = 1%nat).
Proof.
  intros Hs Hheader.
  exists (MatrixRateLimitError__init__ (error_details r).2 429 seconds).
  assert (∀ t, _handle_response self r t =
               (Raise (Matrix (MatrixRateLimitError__init__
                                 (error_details r).2 429 seconds)),
                logging ERROR "http_error" t)) as Hraise.
  { intros t. rewrite handle_response_rate_limit by done.
    by destruct Hheader as [[-> ->] | [-> ->]]. }
  split_and!; [done | done | done |].
  intros method url headers kwargs Hmax Hr.
  destruct (request_first_received self method url headers kwargs r Hmax Hr)
    as (t & Heq & Hone).
  exists t. by rewrite Heq, Hraise.
Qed.

(** C8.  A response with status below 400: an empty body gives the empty
    dictionary, a body that decodes gives the decoded value, and a
    non-empty body that does not decode raises [JSONDecodeError], which
    ends the loop of [request] at that attempt whatever budget is left. *)
Theorem success_body_decoding self r t :
  httpx.status_code r < 400 →
  (httpx.content r = "" →
   _handle_response self r t = (Return (VDict ∅), t)) ∧
  (∀ v, httpx.content r ≠ "" →
        json_loads (httpx.content r) = Some v →
        _handle_response self r t = (Return v, t)) ∧
  (httpx.content r ≠ "" →
   json_loads (httpx.content r) = None →
   _handle_response self r t = (Raise JSONDecodeError, t) ∧
   ∀ req fuel retries last t0,
     retries ≤ max_retries (config self) →
     client self (attempts t0) req = inr r →
     ∃ t', retry_loop self req (S fuel) retries last t0 =
             Some (Raise JSONDecodeError, t') ∧
           attempts t' = S (attempts t0)).
Proof.
  intros Hs. split_and!.
  - intros Hempty. by rewrite handle_response_success, Hempty.
  - intros v Hne Hv. rewrite handle_response_success, Hv by done.
    by destruct (String.eqb_spec (httpx.content r) "").
  - intros Hne Hbad.
    assert (∀ t1, _handle_response self r t1 = (Raise JSONDecodeError, t1)) as Hraise.
    { intros t1. rewrite handle_response_success, Hbad by done.
      by destruct (String.eqb_spec (httpx.content r) ""). }
    split; [apply Hraise |].
    intros req fuel retries last t0 Hle Hr.
    destruct (retry_loop_received self req fuel retries last t0 r Hle Hr)
      as (t' & Heq & Hsent).
    exists t'. rewrite Heq, Hraise. split; [done |].
    unfold attempts. rewrite Hsent, length_app. simpl. lia.
Qed.

(** C9.  The headers of every request a call hands to the transport:
    [Content-Type], [Accept] and [User-Agent] have the client's values and,
    with a non-empty token, [Authorization] is the bearer token, whatever
    the caller supplied under these names; every other header of the
    caller is passed on as it is; without a token the caller's
    [Authorization], if any, stays. *)
Theorem injected_headers self method url headers kwargs :
  let supplied := default ∅ headers in
  let out := outgoing_headers self headers in
  out !! "Content-Type" = Some "application/json" ∧
  out !! "Accept" = Some "application/json" ∧
  out !! "User-Agent" = Some "matrix-system/1.0.0" ∧
  (∀ token, api_token (config self) = Some token → token ≠ "" →
            out !! "Authorization" = Some ("Bearer " +:+ token)) ∧
  (truthy_str (api_token (config self)) = false →
   out !! "Authorization" = supplied !! "Authorization") ∧
  (∀ k, k ∉ ["Content-Type"; "Accept"; "User-Agent"; "Authorization"] →
        out !! k = supplied !! k) ∧
  (∃ res t, request self method url headers kwargs = Some (res, t) ∧
            (0 ≤ max_retries (config self) → (1 ≤ attempts t)%nat) ∧
            ∀ req, req ∈ sent t → httpx.headers_sent req = out).
Proof.
  intros supplied out. unfold out, outgoing_headers. fold supplied.
  destruct (get_headers_fixed self) as (Hct & Hacc & Hua).
  split_and!.
  - by apply lookup_union_Some_l.
  - by apply lookup_union_Some_l.
  - by apply lookup_union_Some_l.
  - intros token Htok Hne. apply lookup_union_Some_l.
    by rewrite get_headers_authorization, Htok, truthy_str_Some.
  - intros Hno. apply lookup_union_r. rewrite get_headers_authorization.
    destruct (api_token (config self)) as [token|]; [| done].
    by rewrite Hno.
  - intros k Hk. apply lookup_union_r. by apply get_headers_other.
  - destruct (request_runs self method url headers kwargs)
      as (res & t & k & Heq & Hsent & _ & H1 & _).
    exists res, t. split_and!; [done | |].
    + intros Hmax. unfold attempts. rewrite Hsent, length_replicate. auto.
    + intros req. rewrite Hsent. intros [-> _]%elem_of_replicate. done.
Qed.

(** C10.  A response with status 429 whose [Retry-After] value is not
    empty and is not an integer for [int()] (the value being ASCII text,
    where [python_int] is [int()]): the classifier raises [ValueError],
    and so does the loop of [request] at that attempt; no
    [MatrixRateLimitError] is built. *)
Theorem malformed_retry_after_value_error self r value :
  httpx.status_code r = 429 →
  httpx.get (httpx.headers r) "Retry-After" = Some value →
  value ≠ "" →
  is_ascii value = true →
  python_int value = None →
  (∀ t, _handle_response self r t = (Raise ValueError, logging ERROR "http_error" t)) ∧
  (∀ req fuel retries last t0,
     retries ≤ max_retries (config self) →
     client self (attempts t0) req = inr r →
     ∃ t', retry_loop self req (S fuel) retries last t0 =
             Some (Raise ValueError, t') ∧
           attempts t' = S (attempts t0)).
Proof.
  intros Hs Hget Hne _ Hint.
  assert (∀ t, _handle_response self r t =
               (Raise ValueError, logging ERROR "http_error" t)) as Hraise.
  { intros t. rewrite handle_response_rate_limit, Hget by done.
    by rewrite truthy_str_Some, Hint. }
  split; [done |].
  intros req fuel retries last t0 Hle Hr.
  destruct (retry_loop_received self req fuel retries last t0 r Hle Hr)
    as (t' & Heq & Hsent).
  exists t'. rewrite Heq, Hraise. split; [done |].
  unfold attempts. rewrite Hsent, length_app. simpl. lia.
Qed.

(** ** Further properties of the classifier *)

(** The binding of [error_data], when there is one, is the decoded body. *)
Lemma error_details_data r :
  (error_details r).1 = json_loads (httpx.content r).
Proof.
  run_error_details.
  destruct (json_loads (httpx.content r)) as [[]|]; reflexivity.
Qed.

(** Every [MatrixAPIError] the classifier raises, by status. *)
Lemma handle_response_matrix self r t e :
  (_handle_response self r t).1 = Raise (Matrix e) →
  400 ≤ httpx.status_code r ∧
  ((e = MatrixAuthError__init__
          (VStr (str (error_details r).2 +:+
                 if truthy_str (api_token (config self)) then "" else token_hint))
          (httpx.status_code r) ∧
    (httpx.status_code r = 401 ∨ httpx.status_code r = 403)) ∨
   (httpx.status_code r = 404 ∧
    e = MatrixNotFoundError__init__ (error_details r).2 404) ∨
   (httpx.status_code r = 422 ∧
    ∃ data, json_loads (httpx.content r) = Some data ∧
            e = MatrixValidationError__init__ (error_details r).2 422 (Some data)) ∨
   (httpx.status_code r = 429 ∧
    ∃ seconds, e = MatrixRateLimitError__init__ (error_details r).2 429 seconds) ∨
   ((httpx.status_code r ∉ [401; 403; 404; 422; 429]) ∧
    ∃ data, json_loads (httpx.content r) = Some data ∧
            e = MatrixAPIError__init__ MatrixAPIError (error_details r).2
                  (Some (httpx.status_code r)) (Some data))).
Proof.
  destruct (Z_lt_dec (httpx.status_code r) 400) as [Hlt | Hge].
  { rewrite handle_response_success by done. cbn [fst].
    destruct (String.eqb (httpx.content r) ""); [done |].
    by destruct (json_loads (httpx.content r)). }
  intros Hraise. split; [lia |].
  destruct (decide (httpx.status_code r = 401 ∨ httpx.status_code r = 403))
    as [Hauth | Hauth].
  { rewrite handle_response_auth in Hraise by done. cbn [fst] in Hraise.
    left. split; [| done]. by injection Hraise as <-. }
  destruct (decide (httpx.status_code r = 404)) as [H404 | H404].
  { rewrite handle_response_not_found in Hraise by done. cbn [fst] in Hraise.
    right; left. split; [done |]. by injection Hraise as <-. }
  destruct (decide (httpx.status_code r = 422)) as [H422 | H422].
  { rewrite handle_response_validation, error_details_data in Hraise by done.
    cbn [fst] in Hraise. do 2 right; left. split; [done |].
    destruct (json_loads (httpx.content r)) as [data|]; [| done].
    exists data. split; [done |]. by injection Hraise as <-. }
  destruct (decide (httpx.status_code r = 429)) as [H429 | H429].
  { rewrite handle_response_rate_limit in Hraise by done. cbn [fst] in Hraise.
    do 3 right; left. split; [done |].
    destruct (httpx.get (httpx.headers r) "Retry-After") as [text|];
      [destruct (truthy_str (Some text)); [destruct (python_int text) |] |];
      try done; eexists; by injection Hraise as <-. }
  assert (httpx.status_code r ∉ [401; 403; 404; 422; 429]) as Hother.
  { rewrite !not_elem_of_cons. split_and!; [tauto.. | apply not_elem_of_nil]. }
  rewrite handle_response_other, error_details_data in Hraise; [| lia | done].
  cbn [fst] in Hraise. do 4 right. split; [done |].
  destruct (json_loads (httpx.content r)) as [data|]; [| done].
  exists data. split; [done |]. by injection Hraise as <-.
Qed.

(** A 429 received in the loop: the error is re-raised, and the
    [rate_limited] warning is logged when [retry_after] is truthy. *)
Lemma retry_loop_rate_limited self req fuel retries last t r e :
  retries ≤ max_retries (config self) →
  client self (attempts t) req = inr r →
  cls e = MatrixRateLimitError →
  (∀ t1, _handle_response self r t1 =
         (Raise (Matrix e), logging ERROR "http_error" t1)) →
  retry_loop self req (S fuel) retries last t =
    Some (Raise (Matrix e),
          let t1 := logging ERROR "http_error" (sending req t) in
          if truthy_int (retry_after e)
          then logging WARNING "rate_limited" t1 else t1).
Proof.
  intros Hle Hr Hcls Hraise. simpl.
  replace (retries <=? max_retries (config self)) with true by lia.
  rewrite (attempt_received _ _ _ _ Hr), Hraise, Hcls.
  by destruct (truthy_int (retry_after e)).
Qed.

(** X5.  The classifier raises [UnboundLocalError] for [error_data]
    exactly when [raise_for_status] raises for the response, the status
    is none of 401, 403, 404 and 429, and the body does not decode as
    JSON. *)
Theorem unbound_local_exactly_when self r t :
  (_handle_response self r t).1 = Raise (UnboundLocalError "error_data") ↔
  httpx.is_error r = true ∧
  (httpx.status_code r ∉ [401; 403; 404; 429]) ∧
  json_loads (httpx.content r) = None.
Proof.
  unfold httpx.is_error. rewrite Z.leb_le.
  rewrite !not_elem_of_cons.
  destruct (Z_lt_dec (httpx.status_code r) 400) as [Hlt | Hge].
  { rewrite handle_response_success by done. cbn [fst]. split; [| lia].
    destruct (String.eqb (httpx.content r) ""); [done |].
    by destruct (json_loads (httpx.content r)). }
  destruct (decide (httpx.status_code r = 401 ∨ httpx.status_code r = 403))
    as [Hauth | Hauth].
  { rewrite handle_response_auth by done. cbn [fst]. split; [done | tauto]. }
  destruct (decide (httpx.status_code r = 404)) as [H404 | H404].
  { rewrite handle_response_not_found by done. cbn [fst]. split; [done | tauto]. }
  destruct (decide (httpx.status_code r = 429)) as [H429 | H429].
  { rewrite handle_response_rate_limit by done. cbn [fst]. split; [| tauto].
    destruct (httpx.get (httpx.headers r) "Retry-After") as [text|];
      [destruct (truthy_str (Some text)); [destruct (python_int text) |] |];
      done. }
  assert (httpx.status_code r ≠ 401 ∧ httpx.status_code r ≠ 403) as [H401 H403]
    by tauto.
  destruct (decide (httpx.status_code r = 422)) as [H422 | H422].
  - rewrite handle_response_validation, error_details_data by done. cbn [fst].
    destruct (json_loads (httpx.content r)) as [data|].
    + split; [done | intros (_ & _ & ?); done].
    + split; [intros _ | done].
      split_and!; try done; [lia | apply not_elem_of_nil].
  - rewrite handle_response_other, error_details_data; [| lia |].
    2:{ rewrite !not_elem_of_cons. split_and!; [done.. | apply not_elem_of_nil]. }
    cbn [fst]. destruct (json_loads (httpx.content r)) as [data|].
    + split; [done | intros (_ & _ & ?); done].
    + split; [intros _ | done].
      split_and!; try done; [lia | apply not_elem_of_nil].
Qed.

(** X6.  Every [MatrixAPIError] the classifier raises carries the status
    of the response and has the class that status selects: 401 and 403
    [MatrixAuthError], 404 [MatrixNotFoundError], 422
    [MatrixValidationError], 429 [MatrixRateLimitError], anything else
    plain [MatrixAPIError]; only a rate-limit error has a [retry_after]. *)
Theorem classified_error_class self r t e :
  (_handle_response self r t).1 = Raise (Matrix e) →
  let s := httpx.status_code r in
  status_code e = Some s ∧
  cls e = (if (s =? 401) || (s =? 403) then MatrixAuthError
           else if s =? 404 then MatrixNotFoundError
           else if s =? 422 then MatrixValidationError
           else if s =? 429 then MatrixRateLimitError
           else MatrixAPIError) ∧
  (cls e ≠ MatrixRateLimitError → retry_after e = None).
Proof.
  intros Hraise s. subst s.
  destruct (handle_response_matrix self r t e Hraise)
    as (Hge & [(-> & Hs) | [(Hs & ->) | [(Hs & data & _ & ->) |
         [(Hs & seconds & ->) | (Hs & data & _ & ->)]]]]).
  - split; [done |]. split; [| done]. simpl.
    by destruct Hs as [-> | ->].
  - rewrite Hs. by split_and!.
  - rewrite Hs. by split_and!.
  - rewrite Hs. by split_and!.
  - rewrite !not_elem_of_cons in Hs. destruct Hs as (? & ? & ? & ? & ? & _).
    split; [done |]. split; [| done]. simpl.
    replace (httpx.status_code r =? 401) with false by lia.
    replace (httpx.status_code r =? 403) with false by lia.
    replace (httpx.status_code r =? 404) with false by lia.
    replace (httpx.status_code r =? 422) with false by lia.
    by replace (httpx.status_code r =? 429) with false by lia.
Qed.

(** X7.  The [response_data] of a classified error is either the empty
    dictionary or the decoded body of the response; it is the body only
    for a [MatrixValidationError] or a plain [MatrixAPIError] and only when
    the body is truthy, so an empty list, [0] or [null] body is replaced by
    the empty dictionary. *)
Theorem classified_error_payload self r t e :
  (_handle_response self r t).1 = Raise (Matrix e) →
  response_data e = VDict ∅ ∨
  (truthy (response_data e) = true ∧
   json_loads (httpx.content r) = Some (response_data e) ∧
   (cls e = MatrixValidationError ∨ cls e = MatrixAPIError)).
Proof.
  intros Hraise.
  destruct (handle_response_matrix self r t e Hraise)
    as (Hge & [(-> & Hs) | [(Hs & ->) | [(Hs & data & Hdata & ->) |
         [(Hs & seconds & ->) | (Hs & data & Hdata & ->)]]]]);
    try (by left).
  - simpl. destruct (truthy data) eqn:Htruthy; [right | by left].
    split_and!; [done | done | by left].
  - simpl. destruct (truthy data) eqn:Htruthy; [right | by left].
    split_and!; [done | done | by right].
Qed.

(** X8.  The message of a classified error is read from the body: the
    value under ["detail"] when the body decodes to a dictionary that has
    the key, of whatever JSON type and unconverted, and the text of the
    status error otherwise.  A [MatrixAuthError] carries that value as
    text, followed by the token hint when no token is configured. *)
Theorem classified_error_message self r t e :
  (_handle_response self r t).1 = Raise (Matrix e) →
  let extracted :=
    match json_loads (httpx.content r) with
    | Some (VDict d) => default (VStr (status_error_str r)) (d !! "detail")
    | _ => VStr (status_error_str r)
    end in
  (cls e ≠ MatrixAuthError → message e = extracted) ∧
  (cls e = MatrixAuthError →
   message e = VStr (str extracted +:+
                     if truthy_str (api_token (config self)) then ""
                     else token_hint)).
Proof.
  intros Hraise extracted.
  assert ((error_details r).2 = extracted) as Hmsg.
  { subst extracted. run_error_details.
    destruct (json_loads (httpx.content r)) as [[]|]; reflexivity. }
  destruct (handle_response_matrix self r t e Hraise)
    as (Hge & [(-> & Hs) | [(Hs & ->) | [(Hs & data & Hdata & ->) |
         [(Hs & seconds & ->) | (Hs & data & Hdata & ->)]]]]);
    rewrite Hmsg; simpl; split; done.
Qed.

(** X9.  A 429 whose [Retry-After] value [int()] accepts (the value
    being ASCII text, where [python_int] is [int()]) carries that integer
    as [retry_after], with no check of its range; received on the first
    attempt it ends the call there, and the [rate_limited] warning is
    logged unless the integer is 0. *)
Theorem retry_after_any_integer self r text n :
  httpx.status_code r = 429 →
  httpx.get (httpx.headers r) "Retry-After" = Some text →
  is_ascii text = true →
  python_int text = Some n →
  let e := MatrixRateLimitError__init__ (error_details r).2 429 (Some n) in
  retry_after e = Some n ∧
  (∀ t, _handle_response self r t =
        (Raise (Matrix e), logging ERROR "http_error" t)) ∧
  (∀ method url headers kwargs,
     0 ≤ max_retries (config self) →
     client self 0%nat (outgoing self method url headers kwargs) = inr r →
     ∃ t, request self method url headers kwargs = Some (Raise (Matrix e), t) ∧
          attempts t = 1%nat ∧
          logged t = [(DEBUG, "http_request"); (ERROR, "http_error")] ++
                     (if n =? 0 then [] else [(WARNING, "rate_limited")])).
Proof.
  intros Hs Hget _ Hint e.
  assert (text ≠ "") as Hne by (intros ->; discriminate Hint).
  assert (∀ t, _handle_response self r t =
               (Raise (Matrix e), logging ERROR "http_error" t)) as Hraise.
  { intros t. rewrite handle_response_rate_limit, Hget by done.
    by rewrite truthy_str_Some, Hint. }
  split_and!; [done | done |].
  intros method url headers kwargs Hmax Hr.
  rewrite request_unfold.
  rewrite (retry_loop_rate_limited self (outgoing self method url headers kwargs)
             (Z.to_nat (max_retries (config self))) 0 None
             (logging DEBUG "http_request" empty_trace) r e Hmax Hr eq_refl Hraise).
  eexists. split; [reflexivity |]. cbv zeta. simpl.
  by destruct (n =? 0).
Qed.

(** ** Further properties of the retry loop *)

(** The outcome of the classifier does not depend on the trace. *)
Lemma handle_response_any_trace self r t1 t2 :
  (_handle_response self r t1).1 = (_handle_response self r t2).1.
Proof.
  destruct (Z_lt_dec (httpx.status_code r) 400) as [Hlt | Hge].
  { by rewrite !handle_response_success. }
  destruct (decide (httpx.status_code r = 401 ∨ httpx.status_code r = 403))
    as [Hauth | Hauth].
  { by rewrite !handle_response_auth. }
  destruct (decide (httpx.status_code r = 404)) as [H404 | H404].
  { by rewrite !handle_response_not_found. }
  destruct (decide (httpx.status_code r = 422)) as [H422 | H422].
  { by rewrite !handle_response_validation. }
  destruct (decide (httpx.status_code r = 429)) as [H429 | H429].
  { by rewrite !handle_response_rate_limit. }
  assert (httpx.status_code r ∉ [401; 403; 404; 422; 429]) as Hother.
  { rewrite !not_elem_of_cons. split_and!; [tauto.. | apply not_elem_of_nil]. }
  rewrite !handle_response_other; [done | lia | done | lia | done].
Qed.

(** After [k] transient faults within the budget, the call stands before
    round [k + 1]. *)
Lemma request_after_some_faults self method url headers kwargs (k : nat) :
  Z.of_nat k ≤ max_retries (config self) →
  (∀ i, (i < k)%nat →
        transient (client self i (outgoing self method url headers kwargs))) →
  ∃ fuel last t',
    request self method url headers kwargs =
      retry_loop self (outgoing self method url headers kwargs) (S fuel)
        (Z.of_nat k) last t' ∧
    attempts t' = k.
Proof.
  intros Hk Hfaults. rewrite request_unfold.
  destruct (retry_loop_skip self (outgoing self method url headers kwargs) k
              (S (Z.to_nat (max_retries (config self)) - k)) 0 None
              (logging DEBUG "http_request" empty_trace))
    as (last & t' & Heq & Hsent).
  - lia.
  - intros i Hi. by apply Hfaults.
  - exists (Z.to_nat (max_retries (config self)) - k)%nat, last, t'.
    replace (S (Z.to_nat (max_retries (config self))))
      with (k + S (Z.to_nat (max_retries (config self)) - k))%nat by lia.
    rewrite Heq, Z.add_0_l. split; [done |].
    unfold attempts. rewrite Hsent. simpl. by rewrite length_replicate.
Qed.

(** Where a [MatrixAPIError] that leaves the loop comes from: the
    classifier, or one of the two errors of an exhausted budget. *)
Lemma retry_loop_raised self req fuel :
  ∀ retries last t e t',
    retry_loop self req fuel retries last t = Some (Raise (Matrix e), t') →
    (∃ r t0, (_handle_response self r t0).1 = Raise (Matrix e)) ∨
    (∃ count, e = MatrixConnectionError__init__
                    (connection_message (httpx.url req) count)) ∨
    e = MatrixTimeoutError__init__ (timeout_message self (httpx.url req)).
Proof.
  induction fuel as [|fuel IH]; intros retries last t e t' Hloop; [done |].
  destruct (Z_le_gt_dec retries (max_retries (config self))) as [Hle | Hgt].
  2:{ simpl in Hloop.
      replace (retries <=? max_retries (config self)) with false in Hloop by lia.
      destruct last; [| done]. right; left. eexists.
      by injection Hloop as <- _. }
  destruct (client self (attempts t) req) as [[| |c] | r] eqn:Hc.
  - rewrite (retry_loop_connect_error _ _ _ _ _ _ Hle Hc) in Hloop.
    cbv zeta in Hloop.
    destruct (retries + 1 >? max_retries (config self)); [| by eapply IH].
    right; left. eexists. by injection Hloop as <- _.
  - rewrite (retry_loop_timeout _ _ _ _ _ _ Hle Hc) in Hloop.
    cbv zeta in Hloop.
    destruct (retries + 1 >? max_retries (config self)); [| by eapply IH].
    right; right. by injection Hloop as <- _.
  - by rewrite (retry_loop_other_error _ _ _ _ _ _ _ Hle Hc) in Hloop.
  - destruct (retry_loop_received self req fuel retries last t r Hle Hc)
      as (t1 & Heq & _).
    rewrite Heq in Hloop. left. exists r, (sending req t).
    by injection Hloop as -> _.
Qed.

(** X1.  With [max_retries >= 0] a call ends whatever the transport does,
    after at least one and at most [max_retries + 1] attempts, and every
    attempt hands the transport the same request: the method, URL, merged
    headers and keyword arguments of the call. *)
Theorem request_attempts_bounded self method url headers kwargs :
  0 ≤ max_retries (config self) →
  ∃ res t,
    request self method url headers kwargs = Some (res, t) ∧
    (1 ≤ attempts t)%nat ∧
    Z.of_nat (attempts t) ≤ max_retries (config self) + 1 ∧
    ∀ req, req ∈ sent t → req = outgoing self method url headers kwargs.
Proof.
  intros Hmax.
  destruct (request_runs self method url headers kwargs)
    as (res & t & k & Heq & Hsent & Hk & H1 & _).
  exists res, t. unfold attempts. rewrite Hsent, length_replicate.
  split_and!; [done | auto | lia |].
  by intros req [-> _]%elem_of_replicate.
Qed.

(** X2.  With a negative [max_retries] the loop body never runs: the call
    returns the empty dictionary without a single attempt, having logged
    only the [http_request] event. *)
Theorem request_without_budget self method url headers kwargs :
  max_retries (config self) < 0 →
  request self method url headers kwargs =
    Some (Return (VDict ∅), logging DEBUG "http_request" empty_trace).
Proof.
  intros Hneg. rewrite request_unfold. simpl.
  by replace (0 <=? max_retries (config self)) with false by lia.
Qed.

(** X3.  The first response the transport delivers decides the call: after
    [k] transient faults within the budget, a response received on attempt
    [k + 1] makes the call end with the classifier's outcome for that
    response, after exactly [k + 1] attempts. *)
Theorem first_response_decides self method url headers kwargs (k : nat) r :
  Z.of_nat k ≤ max_retries (config self) →
  (∀ i, (i < k)%nat →
        transient (client self i (outgoing self method url headers kwargs))) →
  client self k (outgoing self method url headers kwargs) = inr r →
  ∃ t, request self method url headers kwargs =
         Some ((_handle_response self r empty_trace).1, t) ∧
       attempts t = S k.
Proof.
  intros Hk Hfaults Hr.
  destruct (request_after_some_faults self method url headers kwargs k Hk Hfaults)
    as (fuel & last & t' & -> & Hn).
  destruct (retry_loop_received self (outgoing self method url headers kwargs)
              fuel (Z.of_nat k) last t' r Hk)
    as (t & Heq & Hsent); [by rewrite Hn |].
  exists t. split.
  - rewrite Heq. do 2 f_equal. apply handle_response_any_trace.
  - unfold attempts in *. rewrite Hsent, length_app, Hn. simpl. lia.
Qed.

(** X4.  A transport error that is neither a connect failure nor a timeout
    is not retried and not wrapped: after [k] transient faults within the
    budget it leaves the call as it is, after attempt [k + 1]. *)
Theorem other_transport_error_escapes self method url headers kwargs
    (k : nat) (c : string) :
  Z.of_nat k ≤ max_retries (config self) →
  (∀ i, (i < k)%nat →
        transient (client self i (outgoing self method url headers kwargs))) →
  client self k (outgoing self method url headers kwargs) =
    inl (httpx.OtherError c) →
  ∃ t, request self method url headers kwargs =
         Some (Raise (Transport (httpx.OtherError c)), t) ∧
       attempts t = S k.
Proof.
  intros Hk Hfaults Hc.
  destruct (request_after_some_faults self method url headers kwargs k Hk Hfaults)
    as (fuel & last & t' & -> & Hn).
  rewrite (retry_loop_other_error self _ fuel _ last t' c); [| done | by rewrite Hn].
  eexists. split; [reflexivity |].
  unfold attempts in *. simpl. rewrite length_app, Hn. simpl. lia.
Qed.

(** ** Further properties of the client's other methods *)

Lemma health_check_unfold self service :
  health_check json_loads py_repr status_error_str self service =
    match service_urls self !! service with
    | None => Some (Raise ValueError, empty_trace)
    | Some base => request self "GET" (base +:+ "/health") None ∅
    end.
Proof. reflexivity. Qed.

Lemma error_str_unfold (e : MatrixException) :
  MatrixAPIError__str__ py_repr e =
    match status_code e with
    | Some code =>
        if negb (code =? 0)
        then Some ("[" +:+ pretty code +:+ "] " +:+ str (message e))
        else match message e with VStr s => Some s | _ => None end
    | None => match message e with VStr s => Some s | _ => None end
    end.
Proof. reflexivity. Qed.

Abbreviation get := (get json_loads py_repr status_error_str).
Abbreviation health_check := (health_check json_loads py_repr status_error_str).
Abbreviation MatrixAPIError__str__ := (MatrixAPIError__str__ py_repr).

(** A classified error carries the status of its response, 400 or more. *)
Lemma handle_response_matrix_status self r t e :
  (_handle_response self r t).1 = Raise (Matrix e) →
  status_code e = Some (httpx.status_code r) ∧ 400 ≤ httpx.status_code r.
Proof.
  intros Hraise.
  destruct (handle_response_matrix self r t e Hraise)
    as (Hge & [(-> & Hs) | [(Hs & ->) | [(Hs & data & _ & ->) |
         [(Hs & seconds & ->) | (Hs & data & _ & ->)]]]]);
    try rewrite Hs; done.
Qed.

(** X10.  The headers written to the [http_request] debug event never
    hold the key [Authorization]; every other outgoing header is logged as
    it is sent; and the bearer value of a configured token can only appear
    there under a key under which the caller itself supplied it. *)
Theorem authorization_not_logged self headers :
  let out := outgoing_headers self headers in
  logged_headers out !! "Authorization" = None ∧
  (∀ k, k ≠ "Authorization" → logged_headers out !! k = out !! k) ∧
  (∀ token k, api_token (config self) = Some token →
              logged_headers out !! k = Some ("Bearer " +:+ token) →
              default ∅ headers !! k = Some ("Bearer " +:+ token)).
Proof.
  intros out. unfold logged_headers. split_and!.
  - apply map_lookup_filter_None. right. intros v _ Hkeep. by apply Hkeep.
  - intros k Hk. destruct (out !! k) as [v|] eqn:Hout.
    + by apply map_lookup_filter_Some.
    + apply map_lookup_filter_None. by left.
  - intros token k Htok [Hout Hk]%map_lookup_filter_Some. simpl in Hk.
    apply lookup_union_Some_raw in Hout as [Hmine | [_ Hsupplied]]; [| done].
    destruct (get_headers_fixed self) as (Hct & Hacc & Hua).
    destruct (decide (k = "Content-Type")) as [-> | ?];
      [rewrite Hct in Hmine; discriminate Hmine |].
    destruct (decide (k = "Accept")) as [-> | ?];
      [rewrite Hacc in Hmine; discriminate Hmine |].
    destruct (decide (k = "User-Agent")) as [-> | ?];
      [rewrite Hua in Hmine; discriminate Hmine |].
    rewrite get_headers_other in Hmine; [done |].
    rewrite !not_elem_of_cons. split_and!; [done.. | apply not_elem_of_nil].
Qed.

(** X11.  [health_check] with a service name other than [hub], [ai] and
    [guardian] raises [ValueError] before anything is logged or sent. *)
Theorem health_check_unknown_service self service :
  service ∉ ["hub"; "ai"; "guardian"] →
  health_check self service = Some (Raise ValueError, empty_trace).
Proof.
  rewrite !not_elem_of_cons. intros (? & ? & ? & _).
  rewrite health_check_unfold. unfold service_urls. by simplify_map_eq.
Qed.

(** X12.  [health_check] for one of the three services is a GET of the
    service's base URL followed by [/health], with no headers of the
    caller and no other argument: with [max_retries >= 0] it ends after at
    least one and at most [max_retries + 1] attempts, each of them that
    same GET carrying exactly the client's own headers. *)
Theorem health_check_known_service self service base :
  (service, base) ∈ [("hub", matrix_hub_url (config self));
                     ("ai", matrix_ai_url (config self));
                     ("guardian", matrix_guardian_url (config self))] →
  0 ≤ max_retries (config self) →
  health_check self service = request self "GET" (base +:+ "/health") None ∅ ∧
  ∃ res t,
    health_check self service = Some (res, t) ∧
    (1 ≤ attempts t)%nat ∧
    Z.of_nat (attempts t) ≤ max_retries (config self) + 1 ∧
    ∀ req, req ∈ sent t →
           httpx.method req = "GET" ∧
           httpx.url req = base +:+ "/health" ∧
           httpx.headers_sent req = _get_headers self ∧
           httpx.kwargs req = ∅.
Proof.
  intros Hin Hmax.
  assert (health_check self service =
          request self "GET" (base +:+ "/health") None ∅) as Heq.
  { rewrite health_check_unfold. unfold service_urls.
    rewrite !elem_of_cons in Hin.
    destruct Hin as [Hin | [Hin | [Hin | Hin]]];
      [injection Hin as -> -> .. | by apply elem_of_nil in Hin];
      by simplify_map_eq. }
  split; [done |]. rewrite Heq.
  destruct (request_runs self "GET" (base +:+ "/health") None ∅)
    as (res & t & k & Hrun & Hsent & Hk & H1 & _).
  exists res, t. unfold attempts. rewrite Hsent, length_replicate.
  split_and!; [done | auto | lia |].
  intros req [-> _]%elem_of_replicate. simpl.
  split_and!; [done | done | | done].
  unfold outgoing_headers. simpl. apply (right_id _ _).
Qed.

(** X13.  Every [MatrixAPIError] a call raises can be printed: either it
    carries a status, which is not 0, and [str()] gives the status in
    brackets followed by the message, or it is a [MatrixConnectionError] or
    [MatrixTimeoutError] without status whose message is a string, which
    [str()] gives as it is. *)
Theorem raised_error_printable self method url headers kwargs e t :
  request self method url headers kwargs = Some (Raise (Matrix e), t) →
  (∃ code, status_code e = Some code ∧ code ≠ 0 ∧
           MatrixAPIError__str__ e =
             Some ("[" +:+ pretty code +:+ "] " +:+ str (message e))) ∨
  (status_code e = None ∧
   (cls e = MatrixConnectionError ∨ cls e = MatrixTimeoutError) ∧
   ∃ text, message e = VStr text ∧ MatrixAPIError__str__ e = Some text).
Proof.
  rewrite request_unfold. intros Hloop.
  destruct (retry_loop_raised _ _ _ _ _ _ _ _ Hloop)
    as [(r & t0 & Hraise) | [[count ->] | ->]].
  - left. destruct (handle_response_matrix_status self r t0 e Hraise) as [Hs Hge].
    exists (httpx.status_code r). split_and!; [done | lia |].
    rewrite error_str_unfold, Hs.
    by replace (httpx.status_code r =? 0) with false by lia.
  - right. split_and!; [done | by left |]. by eexists.
  - right. split_and!; [done | by right |]. by eexists.
Qed.

(** X16.  A configuration whose [max_retries] is within the bounds
    declared for the field, 0 to 10, makes every call end after at least
    one and at most eleven attempts. *)
Theorem bounded_config_attempts self method url headers kwargs :
  max_retries_in_bounds (config self) = true →
  ∃ res t,
    request self method url headers kwargs = Some (res, t) ∧
    (1 ≤ attempts t ≤ 11)%nat.
Proof.
  unfold max_retries_in_bounds. intros [Hlo Hhi]%andb_true_iff.
  destruct (request_runs self method url headers kwargs)
    as (res & t & k & Heq & Hsent & Hk & H1 & _).
  exists res, t. unfold attempts. rewrite Hsent, length_replicate.
  split; [done |]. split; [apply H1; lia | lia].
Qed.

(** ** Properties of the [health] command *)

Context (duration_text : nat → string).

(** The three ways one service check can end. *)
Lemma health_step_row self i svc d t :
  health_check self svc = Some (Return (VDict d), t) →
  health_step json_loads py_repr status_error_str duration_text self i svc =
    Some (inr {| service_cell := upper svc;
                 status_cell :=
                   "✓ " +:+ str (default (VStr "unknown") (d !! "status"));
                 time_cell := duration_text i |}).
Proof. intros H. unfold health_step. by rewrite H. Qed.

Lemma health_step_error_row self i svc e t text :
  health_check self svc = Some (Raise (Matrix e), t) →
  MatrixAPIError__str__ e = Some text →
  health_step json_loads py_repr status_error_str duration_text self i svc =
    Some (inr {| service_cell := upper svc;
                 status_cell := "✗ " +:+ text;
                 time_cell := "N/A" |}).
Proof. intros H Hstr. unfold health_step. by rewrite H, Hstr. Qed.

Lemma health_step_escape self i svc e t :
  health_check self svc = Some (Raise e, t) →
  (∀ m, e ≠ Matrix m) →
  health_step json_loads py_repr status_error_str duration_text self i svc =
    Some (inl (Escaped e)).
Proof.
  intros H Hno. unfold health_step. rewrite H.
  destruct e as [| | | | | m]; try done. by destruct (Hno m).
Qed.

Lemma health_step_not_dict self i svc v t :
  health_check self svc = Some (Return v, t) →
  (∀ d, v ≠ VDict d) →
  health_step json_loads py_repr status_error_str duration_text self i svc =
    Some (inl AttributeError).
Proof.
  intros H Hno. unfold health_step. rewrite H.
  destruct v as [| | | | | | d]; try done. by destruct (Hno d).
Qed.

Lemma health_loop_cons self i svc rest table :
  health_loop json_loads py_repr status_error_str duration_text self i
    (svc :: rest) table =
    match health_step json_loads py_repr status_error_str duration_text
            self i svc with
    | None => None
    | Some (inl exn) => Some (inl exn)
    | Some (inr row) =>
        health_loop json_loads py_repr status_error_str duration_text self
          (S i) rest (table ++ [row])
    end.
Proof. reflexivity. Qed.

Lemma health_unfold self service :
  health json_loads py_repr status_error_str duration_text self service =
    health_loop json_loads py_repr status_error_str duration_text self 0
      (services_to_check service) [].
Proof. reflexivity. Qed.

Abbreviation health_step :=
  (health_step json_loads py_repr status_error_str duration_text).
Abbreviation health_loop :=
  (health_loop json_loads py_repr status_error_str duration_text).
Abbreviation health :=
  (health json_loads py_repr status_error_str duration_text).

(** An error raised by [health_check] has a [str()]. *)
Lemma health_check_error_str self svc e t :
  health_check self svc = Some (Raise (Matrix e), t) →
  is_Some (MatrixAPIError__str__ e).
Proof.
  rewrite health_check_unfold.
  destruct (service_urls self !! svc) as [base|]; [| done].
  rewrite request_unfold. intros Hloop.
  destruct (retry_loop_raised _ _ _ _ _ _ _ _ Hloop)
    as [(r & t0 & Hraise) | [[count ->] | ->]]; [| done..].
  destruct (handle_response_matrix_status self r t0 e Hraise) as [Hs Hge].
  rewrite error_str_unfold, Hs.
  by replace (httpx.status_code r =? 0) with false by lia.
Qed.

(** A service check that ends in a dictionary or in a [MatrixAPIError]. *)
Definition check_caught self (svc : string) : Prop :=
  ∃ t, (∃ d, health_check self svc = Some (Return (VDict d), t)) ∨
       (∃ e, health_check self svc = Some (Raise (Matrix e), t)).

Lemma health_step_caught self i svc :
  check_caught self svc →
  ∃ row, health_step self i svc = Some (inr row) ∧ service_cell row = upper svc.
Proof.
  intros (t & [[d Hd] | [e He]]).
  - rewrite (health_step_row _ _ _ _ _ Hd). by eexists.
  - destruct (health_check_error_str _ _ _ _ He) as [text Hstr].
    rewrite (health_step_error_row _ _ _ _ _ _ He Hstr). by eexists.
Qed.

(** The loop over services whose checks are all caught adds one row for
    each, in order. *)
Lemma health_loop_rows self services :
  ∀ i table,
    (∀ svc, svc ∈ services → check_caught self svc) →
    ∃ rows,
      health_loop self i services table = Some (inr (table ++ rows)) ∧
      length rows = length services ∧
      ∀ j svc, services !! j = Some svc →
               ∃ row, rows !! j = Some row ∧
                      health_step self (i + j) svc = Some (inr row).
Proof.
  induction services as [|svc rest IH]; intros i table Hall.
  - exists []. simpl. by rewrite app_nil_r.
  - destruct (health_step_caught self i svc) as (row & Hrow & _).
    { apply Hall. by left. }
    destruct (IH (S i) (table ++ [row])) as (rows & Hloop & Hlen & Hrows).
    { intros s Hs. apply Hall. by right. }
    exists (row :: rows). rewrite health_loop_cons, Hrow, Hloop.
    split_and!; [by rewrite <- app_assoc | by simpl; rewrite Hlen |].
    intros [|j] s Hs; simpl in Hs.
    + injection Hs as <-. exists row. by rewrite Nat.add_0_r.
    + destruct (Hrows j s Hs) as (r & Hr & Hstep).
      exists r. split; [done |]. by rewrite <- Nat.add_succ_comm.
Qed.

(** The loop passes over services whose checks are caught. *)
Lemma health_loop_skip self pre :
  ∀ i table rest,
    (∀ svc, svc ∈ pre → check_caught self svc) →
    ∃ rows,
      health_loop self i (pre ++ rest) table =
        health_loop self (i + length pre) rest (table ++ rows).
Proof.
  induction pre as [|svc pre IH]; intros i table rest Hall.
  - exists []. simpl. by rewrite app_nil_r, Nat.add_0_r.
  - destruct (health_step_caught self i svc) as (row & Hrow & _).
    { apply Hall. by left. }
    destruct (IH (S i) (table ++ [row]) rest) as (rows & Hloop).
    { intros s Hs. apply Hall. by right. }
    exists (row :: rows).
    change ((svc :: pre) ++ rest) with (svc :: (pre ++ rest)).
    rewrite health_loop_cons, Hrow, Hloop. simpl.
    by rewrite <- app_assoc, <- Nat.add_succ_comm.
Qed.




End Properties.

(** ** Properties of the configuration checks *)

Lemma upper_ascii_idemp (c : ascii) : upper_ascii (upper_ascii c) = upper_ascii c.
Proof. by destruct c as [[] [] [] [] [] [] [] []]. Qed.

Lemma upper_idemp (s : string) : upper (upper s) = upper s.
Proof.
  induction s as [|c s IH]; [done |]. simpl. by rewrite upper_ascii_idemp, IH.
Qed.

Lemma upper_lower_ascii (c : ascii) : upper_ascii (lower_ascii c) = upper_ascii c.
Proof. by destruct c as [[] [] [] [] [] [] [] []]. Qed.

Lemma upper_lower (s : string) : upper (lower s) = upper s.
Proof.
  induction s as [|c s IH]; [done |]. simpl. by rewrite upper_lower_ascii, IH.
Qed.

(** X14.  A log level, given as ASCII text, that [validate_log_level]
    accepts comes back in upper case and is one of the five level names;
    validating the result again accepts it and changes nothing. *)
Theorem validate_log_level_canonical (v level : string) :
  is_ascii v = true →
  validate_log_level v = Return level →
  level = upper v ∧
  level ∈ ["DEBUG"; "INFO"; "WARNING"; "ERROR"; "CRITICAL"] ∧
  validate_log_level level = Return level.
Proof.
  unfold validate_log_level. intros _ Hv.
  destruct (bool_decide_reflect (upper v ∉ valid_levels)) as [Hout | Hin];
    [done |].
  injection Hv as <-. apply dec_stable in Hin.
  split_and!; [done | |].
  - rewrite !elem_of_cons. unfold valid_levels in Hin.
    rewrite !elem_of_union, !elem_of_singleton in Hin. tauto.
  - rewrite upper_idemp. by rewrite bool_decide_false by (by intros ?).
Qed.

(** X15.  [validate_log_level] does not look at letter case: a level
    spelt in lower case, or in upper case, is treated as the level as
    given (for ASCII text). *)
Theorem validate_log_level_any_case (v : string) :
  is_ascii v = true →
  validate_log_level (lower v) = validate_log_level v ∧
  validate_log_level (upper v) = validate_log_level v.
Proof.
  intros _. unfold validate_log_level.
  by rewrite upper_lower, upper_idemp.
Qed.

(** X17.  [get_config] keeps the first configuration it managed to load:
    every later call returns that same configuration and leaves [_config]
    as it is, whatever the environment has become; a load that fails
    leaves [_config] unset, so that the next call loads again. *)
Theorem get_config_cached {Env : Type} (load : Env → option Config)
    (env : Env) (c : option Config) (stored : option Config) :
  get_config load env None = (c, stored) →
  stored = c ∧
  (∀ c0, c = Some c0 →
         ∀ env', get_config load env' stored = (Some c0, stored)) ∧
  (c = None → ∀ env', get_config load env' stored = get_config load env' None).
Proof.
  unfold get_config. intros Hfirst.
  destruct (load env) as [c0|]; injection Hfirst as <- <-.
  - split_and!; [done | | done]. by intros ? [= <-] env'.
  - by split_and!.
Qed.

(** ** The claims on sample inputs *)

(** Three calls with the sample objects: three failures to connect with
    [max_retries = 2]; two failures and then a 200 with body
    [{"status":"ok"}]; and [max_retries = 0]. *)
Lemma retry_budget_attempts_witness :
  (∃ e t, request sample_loads sample_repr sample_status_text
            (sample_client 2 None (always (inl httpx.ConnectError)))
            "GET" sample_url None ∅ = Some (Raise (Matrix e), t) ∧
          cls e = MatrixConnectionError ∧
          message e =
            VStr "Failed to connect to http://localhost:8080/health after 3 attempts" ∧
          status_code e = None ∧
          attempts t = 3%nat) ∧
  (∃ t, request sample_loads sample_repr sample_status_text
          (sample_client 2 None
             (failing_first 2 (inr (sample_response 200 [] status_ok_body))))
          "GET" sample_url None ∅ =
          Some (Return (VDict {[ "status" := VStr "ok" ]}), t) ∧
        attempts t = 3%nat) ∧
  (∃ res t, request sample_loads sample_repr sample_status_text
              (sample_client 0 None (always (inl httpx.TimeoutException)))
              "GET" sample_url None ∅ = Some (res, t) ∧
            attempts t = 1%nat).
Proof.
  split_and!.
  - apply (retry_budget_attempts sample_loads sample_repr sample_status_text
             (sample_client 2 None (always (inl httpx.ConnectError)))
             "GET" sample_url None ∅ 2 eq_refl).
    intros i _. reflexivity.
  - apply (proj1 (proj2
             (retry_budget_attempts sample_loads sample_repr sample_status_text
                (sample_client 2 None
                   (failing_first 2 (inr (sample_response 200 [] status_ok_body))))
                "GET" sample_url None ∅ 2 eq_refl))
             (sample_response 200 [] status_ok_body)).
    + intros [|[|i]] Hi; [reflexivity | reflexivity | lia].
    + reflexivity.
    + simpl. lia.
    + right. split; [discriminate | reflexivity].
  - apply (retry_budget_attempts sample_loads sample_repr sample_status_text
             (sample_client 0 None (always (inl httpx.TimeoutException)))
             "GET" sample_url None ∅ 0 eq_refl).
    reflexivity.
Defined.

(** A 404 on the first of four allowed attempts ends the call at once, and
    in a call that fails to connect twice before it gets a 200, only the
    two failures were followed by another attempt. *)
Lemma received_response_is_terminal_witness :
  (∃ t', retry_loop sample_loads sample_repr sample_status_text
           (sample_client 3 None (always (inr (sample_response 404 [] "gone"))))
           (outgoing (sample_client 3 None
                        (always (inr (sample_response 404 [] "gone"))))
              "GET" sample_url None ∅)
           4 0 None empty_trace =
           Some (Raise (Matrix (MatrixNotFoundError__init__
                   (VStr "HTTP status 404") 404)), t') ∧
         attempts t' = 1%nat) ∧
  (∃ res t,
     request sample_loads sample_repr sample_status_text
       (sample_client 3 None (failing_first 2 (inr (sample_response 200 [] ""))))
       "GET" sample_url None ∅ = Some (res, t) ∧
     ∀ i r, failing_first 2 (inr (sample_response 200 [] "")) i
              (outgoing (sample_client 3 None
                           (failing_first 2 (inr (sample_response 200 [] ""))))
                 "GET" sample_url None ∅) = inr r →
            (attempts t ≤ S i)%nat).
Proof.
  split.
  - apply (proj1 (received_response_is_terminal sample_loads sample_repr
                    sample_status_text
                    (sample_client 3 None
                       (always (inr (sample_response 404 [] "gone"))))
                    "GET" sample_url None ∅)
             3%nat 0 None empty_trace (sample_response 404 [] "gone")).
    + simpl. lia.
    + reflexivity.
  - destruct (proj2 (received_response_is_terminal sample_loads sample_repr
                       sample_status_text
                       (sample_client 3 None
                          (failing_first 2 (inr (sample_response 200 [] ""))))
                       "GET" sample_url None ∅))
      as (res & t & Heq & _ & Hlast).
    exists res, t. split; [exact Heq | exact Hlast].
Defined.

(** A 500 with a plain-text body, classified with the sample decoder. *)
Lemma non_json_error_body_unbound_local_witness :
  (_handle_response sample_loads sample_repr sample_status_text
     (sample_client 3 None (always (inl httpx.ConnectError)))
     (sample_response 500 [] "Internal Server Error") empty_trace).1 =
    Raise (UnboundLocalError "error_data").
Proof.
  apply (non_json_error_body_unbound_local sample_loads sample_repr
           sample_status_text
           (sample_client 3 None (always (inl httpx.ConnectError)))
           (sample_response 500 [] "Internal Server Error") empty_trace).
  - simpl. lia.
  - simpl. rewrite !not_elem_of_cons.
    split_and!; [lia | lia | lia | lia | apply not_elem_of_nil].
  - reflexivity.
Defined.

(** C4 as stated fails for timeouts: with [max_retries = 0] and a timeout
    of 30 seconds, one attempt that times out gives a [MatrixTimeoutError]
    whose message does not contain the attempt count. *)
Lemma timeout_message_omits_attempt_count :
  ∃ m t,
    request sample_loads sample_repr sample_status_text
      (sample_client 0 None (always (inl httpx.TimeoutException)))
      "GET" sample_url None ∅ =
      Some (Raise (Matrix (MatrixTimeoutError__init__ (VStr m))), t) ∧
    attempts t = 1%nat ∧
    m = "Request to http://localhost:8080/health timed out after 30s" ∧
    ¬ contains (pretty (Z.of_nat (attempts t))) m.
Proof.
  eexists _, _. split; [reflexivity |]. split; [reflexivity |].
  split; [reflexivity |]. apply containsb_false. reflexivity.
Qed.

(** Budget 1, a timeout and then a failure to connect; and budget 1 with
    two timeouts. *)
Lemma exhausted_budget_messages_witness :
  (∃ m t,
     request sample_loads sample_repr sample_status_text
       (sample_client 1 None
          (λ i _, if (i <? 1)%nat then inl httpx.TimeoutException
                  else inl httpx.ConnectError))
       "GET" sample_url None ∅ =
       Some (Raise (Matrix (MatrixConnectionError__init__ (VStr m))), t) ∧
     attempts t = 2%nat ∧
     contains (pretty (Z.of_nat (attempts t))) m) ∧
  (∃ m t,
     request sample_loads sample_repr sample_status_text
       (sample_client 1 None (always (inl httpx.TimeoutException)))
       "GET" sample_url None ∅ =
       Some (Raise (Matrix (MatrixTimeoutError__init__ (VStr m))), t) ∧
     attempts t = 2%nat ∧
     m = "Request to " +:+ sample_url +:+ " timed out after "
           +:+ pretty 30 +:+ "s" ∧
     contains (pretty 30) m).
Proof.
  split.
  - apply (exhausted_budget_messages sample_loads sample_repr sample_status_text
             (sample_client 1 None
                (λ i _, if (i <? 1)%nat then inl httpx.TimeoutException
                        else inl httpx.ConnectError))
             "GET" sample_url None ∅ 1 eq_refl).
    + intros [|i] Hi; [by right | lia].
    + reflexivity.
  - apply (exhausted_budget_messages sample_loads sample_repr sample_status_text
             (sample_client 1 None (always (inl httpx.TimeoutException)))
             "GET" sample_url None ∅ 1 eq_refl).
    + intros i _. by right.
    + reflexivity.
Defined.

(** A 401 without a token and a 403 with one, both with a body that is
    not JSON, so that the extracted message is the text of the status
    error. *)
Lemma auth_failure_hint_witness :
  (∃ e text,
     (_handle_response sample_loads sample_repr sample_status_text
        (sample_client 3 None (always (inl httpx.ConnectError)))
        (sample_response 401 [] "denied") empty_trace).1 = Raise (Matrix e) ∧
     cls e = MatrixAuthError ∧
     message e = VStr text ∧
     text = "HTTP status 401" +:+
            " (token missing: set MATRIX_HUB_TOKEN / MATRIX_TOKEN / API_TOKEN for operator/admin endpoints like install/remotes/ingest)" ∧
     contains
       " (token missing: set MATRIX_HUB_TOKEN / MATRIX_TOKEN / API_TOKEN for operator/admin endpoints like install/remotes/ingest)"
       text) ∧
  (∃ e text,
     (_handle_response sample_loads sample_repr sample_status_text
        (sample_client 3 (Some "secret") (always (inl httpx.ConnectError)))
        (sample_response 403 [] "denied") empty_trace).1 = Raise (Matrix e) ∧
     cls e = MatrixAuthError ∧
     message e = VStr text ∧
     text = "HTTP status 403" ∧
     (contains
        " (token missing: set MATRIX_HUB_TOKEN / MATRIX_TOKEN / API_TOKEN for operator/admin endpoints like install/remotes/ingest)"
        text → False)).
Proof.
  assert (containsb
            " (token missing: set MATRIX_HUB_TOKEN / MATRIX_TOKEN / API_TOKEN for operator/admin endpoints like install/remotes/ingest)"
            "HTTP status 401" = false) as Hclean401 by reflexivity.
  assert (containsb
            " (token missing: set MATRIX_HUB_TOKEN / MATRIX_TOKEN / API_TOKEN for operator/admin endpoints like install/remotes/ingest)"
            "HTTP status 403" = false) as Hclean403 by reflexivity.
  split.
  - destruct (auth_failure_hint sample_loads sample_repr sample_status_text
                (sample_client 3 None (always (inl httpx.ConnectError)))
                (sample_response 401 [] "denied") empty_trace
                (or_introl eq_refl))
      as (e & text & Heq & Hcls & _ & Hmsg & Hmissing & _ & Hiff).
    exists e, text. split_and!; [exact Heq | exact Hcls | exact Hmsg | |].
    + exact (Hmissing eq_refl).
    + apply (Hiff (containsb_false _ _ Hclean401)). reflexivity.
  - destruct (auth_failure_hint sample_loads sample_repr sample_status_text
                (sample_client 3 (Some "secret") (always (inl httpx.ConnectError)))
                (sample_response 403 [] "denied") empty_trace
                (or_intror eq_refl))
      as (e & text & Heq & Hcls & _ & Hmsg & _ & Hpresent & Hiff).
    exists e, text. split_and!; [exact Heq | exact Hcls | exact Hmsg | |].
    + exact (Hpresent eq_refl).
    + intros Hc. apply (Hiff (containsb_false _ _ Hclean403)) in Hc.
      discriminate Hc.
Defined.

(** C5 as stated fails when the server's own message holds the text of
    the hint: a 401 whose body is [{"detail": "<the hint>"}], on a client
    with a token, gives a message that contains the hint. *)
Lemma auth_hint_present_with_token :
  ∃ e text,
    (_handle_response hint_echo_loads sample_repr sample_status_text
       (sample_client 3 (Some "secret") (always (inl httpx.ConnectError)))
       (sample_response 401 [] hint_echo_body) empty_trace).1 =
      Raise (Matrix e) ∧
    cls e = MatrixAuthError ∧
    message e = VStr text ∧
    truthy_str (api_token (config
      (sample_client 3 (Some "secret") (always (inl httpx.ConnectError))))) = true ∧
    contains
      " (token missing: set MATRIX_HUB_TOKEN / MATRIX_TOKEN / API_TOKEN for operator/admin endpoints like install/remotes/ingest)"
      text.
Proof.
  eexists _, _. split; [reflexivity |].
  split_and!; [reflexivity | reflexivity | reflexivity |].
  apply containsb_true. reflexivity.
Qed.

(** The 422 of the specification, with the sample decoder. *)
Lemma validation_failure_bad_field_witness :
  ∃ e, (_handle_response sample_loads sample_repr sample_status_text
          (sample_client 3 None (always (inl httpx.ConnectError)))
          (sample_response 422 [] bad_field_body) empty_trace).1 =
         Raise (Matrix e) ∧
       cls e = MatrixValidationError ∧
       message e = VStr "bad field" ∧
       status_code e = Some 422 ∧
       response_data e = VDict {[ "detail" := VStr "bad field" ]}.
Proof.
  apply (validation_failure_bad_field sample_loads sample_repr sample_status_text
           (sample_client 3 None (always (inl httpx.ConnectError)))
           (sample_response 422 [] bad_field_body) empty_trace);
    reflexivity.
Defined.

(** A 429 with [retry-after: 7] and one without the header, each on a
    client that may retry three times. *)
Lemma rate_limit_retry_after_witness :
  (∃ e t, request sample_loads sample_repr sample_status_text
            (sample_client 3 None
               (always (inr (sample_response 429 [("retry-after", "7")] "slow down"))))
            "GET" sample_url None ∅ = Some (Raise (Matrix e), t) ∧
          cls e = MatrixRateLimitError ∧
          retry_after e = Some 7 ∧
          attempts t = 1%nat) ∧
  (∃ e t, request sample_loads sample_repr sample_status_text
            (sample_client 3 None
               (always (inr (sample_response 429 [] "slow down"))))
            "GET" sample_url None ∅ = Some (Raise (Matrix e), t) ∧
          cls e = MatrixRateLimitError ∧
          retry_after e = None ∧
          attempts t = 1%nat).
Proof.
  assert (0 ≤ 3) as Hbudget by lia.
  split.
  - destruct (rate_limit_retry_after sample_loads sample_repr sample_status_text
                (sample_client 3 None
                   (always (inr (sample_response 429 [("retry-after", "7")]
                                   "slow down"))))
                (sample_response 429 [("retry-after", "7")] "slow down")
                (Some 7) eq_refl (or_introl (conj eq_refl eq_refl)))
      as (e & Hcls & Hafter & _ & Hcall).
    destruct (Hcall "GET" sample_url None ∅ Hbudget eq_refl) as (t & Heq & Hone).
    exists e, t. split_and!; assumption.
  - destruct (rate_limit_retry_after sample_loads sample_repr sample_status_text
                (sample_client 3 None
                   (always (inr (sample_response 429 [] "slow down"))))
                (sample_response 429 [] "slow down")
                None eq_refl (or_intror (conj eq_refl eq_refl)))
      as (e & Hcls & Hafter & _ & Hcall).
    destruct (Hcall "GET" sample_url None ∅ Hbudget eq_refl) as (t & Heq & Hone).
    exists e, t. split_and!; assumption.
Defined.

(** Three responses with status 200: no body, the body [{"status":"ok"}],
    and a body that is not JSON. *)
Lemma success_body_decoding_witness :
  _handle_response sample_loads sample_repr sample_status_text
    (sample_client 3 None (always (inl httpx.ConnectError)))
    (sample_response 200 [] "") empty_trace =
    (Return (VDict ∅), empty_trace) ∧
  _handle_response sample_loads sample_repr sample_status_text
    (sample_client 3 None (always (inl httpx.ConnectError)))
    (sample_response 200 [] status_ok_body) empty_trace =
    (Return (VDict {[ "status" := VStr "ok" ]}), empty_trace) ∧
  ∃ t', retry_loop sample_loads sample_repr sample_status_text
          (sample_client 3 None (always (inr (sample_response 200 [] "<html>"))))
          (outgoing (sample_client 3 None
                       (always (inr (sample_response 200 [] "<html>"))))
             "GET" sample_url None ∅)
          4 0 None empty_trace = Some (Raise JSONDecodeError, t') ∧
        attempts t' = 1%nat.
Proof.
  assert (∀ body, httpx.status_code (sample_response 200 [] body) < 400) as Hok
    by (intros body; simpl; lia).
  split_and!.
  - apply (proj1 (success_body_decoding sample_loads sample_repr
                    sample_status_text
                    (sample_client 3 None (always (inl httpx.ConnectError)))
                    (sample_response 200 [] "") empty_trace (Hok ""))).
    reflexivity.
  - apply (proj1 (proj2 (success_body_decoding sample_loads sample_repr
                           sample_status_text
                           (sample_client 3 None (always (inl httpx.ConnectError)))
                           (sample_response 200 [] status_ok_body) empty_trace
                           (Hok status_ok_body))));
      [discriminate | reflexivity].
  - apply (proj2 (proj2 (success_body_decoding sample_loads sample_repr
                           sample_status_text
                           (sample_client 3 None
                              (always (inr (sample_response 200 [] "<html>"))))
                           (sample_response 200 [] "<html>") empty_trace
                           (Hok "<html>"))));
      [discriminate | reflexivity | simpl; lia | reflexivity].
Defined.

(** A caller that supplies its own [Accept], [Authorization] and [X-Trace]
    headers, to a client with a token and to one without. *)
Lemma injected_headers_witness :
  outgoing_headers (sample_client 3 (Some "secret") (always (inl httpx.ConnectError)))
    (Some {[ "Accept" := "text/html"; "Authorization" := "Basic abc";
             "X-Trace" := "1" ]}) =
    {[ "Content-Type" := "application/json"; "Accept" := "application/json";
       "User-Agent" := "matrix-system/1.0.0";
       "Authorization" := "Bearer secret"; "X-Trace" := "1" ]} ∧
  outgoing_headers (sample_client 3 None (always (inl httpx.ConnectError)))
    (Some {[ "Accept" := "text/html"; "Authorization" := "Basic abc";
             "X-Trace" := "1" ]}) !! "Authorization" = Some "Basic abc".
Proof.
  split.
  - vm_compute. reflexivity.
  - destruct (injected_headers sample_loads sample_repr sample_status_text
                (sample_client 3 None (always (inl httpx.ConnectError)))
                "GET" sample_url
                (Some {[ "Accept" := "text/html"; "Authorization" := "Basic abc";
                         "X-Trace" := "1" ]}) ∅)
      as (_ & _ & _ & _ & Hkept & _).
    rewrite (Hkept eq_refl). reflexivity.
Defined.

(** A 429 whose [Retry-After] is an HTTP-date. *)
Lemma malformed_retry_after_value_error_witness :
  is_ascii sample_http_date = true ∧
  python_int sample_http_date = None ∧
  ∃ t', retry_loop sample_loads sample_repr sample_status_text
          (sample_client 3 None
             (always (inr (sample_response 429
                             [("Retry-After", sample_http_date)] ""))))
          (outgoing (sample_client 3 None
                       (always (inr (sample_response 429
                                       [("Retry-After", sample_http_date)] ""))))
             "GET" sample_url None ∅)
          4 0 None empty_trace = Some (Raise ValueError, t') ∧
        attempts t' = 1%nat.
Proof.
  split; [reflexivity |]. split; [reflexivity |].
  apply (proj2 (malformed_retry_after_value_error sample_loads sample_repr
                  sample_status_text
                  (sample_client 3 None
                     (always (inr (sample_response 429
                                     [("Retry-After", sample_http_date)] ""))))
                  (sample_response 429 [("Retry-After", sample_http_date)] "")
                  sample_http_date eq_refl eq_refl ltac:(discriminate)
                  eq_refl eq_refl));
    [simpl; lia | reflexivity].
Defined.

(** ** The further properties on sample inputs *)

Lemma request_attempts_bounded_witness :
  ∃ res t,
    request sample_loads sample_repr sample_status_text
      (sample_client 2 None (failing_first 1 (inl httpx.TimeoutException)))
      "POST" sample_url (Some {[ "X-Trace" := "1" ]}) ∅ = Some (res, t) ∧
    (1 ≤ attempts t)%nat ∧
    Z.of_nat (attempts t) ≤ 3.
Proof.
  destruct (request_attempts_bounded sample_loads sample_repr sample_status_text
              (sample_client 2 None (failing_first 1 (inl httpx.TimeoutException)))
              "POST" sample_url (Some {[ "X-Trace" := "1" ]}) ∅)
    as (res & t & Heq & Hlo & Hhi & _).
  - simpl. lia.
  - exists res, t. split_and!; [exact Heq | exact Hlo | exact Hhi].
Defined.

Lemma request_without_budget_witness :
  request sample_loads sample_repr sample_status_text
    (sample_client (-1) None (always (inr (sample_response 200 [] status_ok_body))))
    "GET" sample_url None ∅ =
    Some (Return (VDict ∅), logging DEBUG "http_request" empty_trace).
Proof.
  apply (request_without_budget sample_loads sample_repr sample_status_text
           (sample_client (-1) None
              (always (inr (sample_response 200 [] status_ok_body))))
           "GET" sample_url None ∅).
  simpl. lia.
Defined.

Lemma first_response_decides_witness :
  ∃ t, request sample_loads sample_repr sample_status_text
         (sample_client 3 None (failing_first 2 (inr (sample_response 404 [] "gone"))))
         "GET" sample_url None ∅ =
         Some (Raise (Matrix (MatrixNotFoundError__init__
                 (VStr "HTTP status 404") 404)), t) ∧
       attempts t = 3%nat.
Proof.
  destruct (first_response_decides sample_loads sample_repr sample_status_text
              (sample_client 3 None
                 (failing_first 2 (inr (sample_response 404 [] "gone"))))
              "GET" sample_url None ∅ 2 (sample_response 404 [] "gone"))
    as (t & Heq & Hn).
  - simpl. lia.
  - intros [|[|i]] Hi; [by left | by left | lia].
  - reflexivity.
  - exists t. split; [exact Heq | exact Hn].
Defined.

Lemma other_transport_error_escapes_witness :
  ∃ t, request sample_loads sample_repr sample_status_text
         (sample_client 3 None
            (failing_first 1 (inl (httpx.OtherError "ReadError"))))
         "GET" sample_url None ∅ =
         Some (Raise (Transport (httpx.OtherError "ReadError")), t) ∧
       attempts t = 2%nat.
Proof.
  apply (other_transport_error_escapes sample_loads sample_repr sample_status_text
           (sample_client 3 None
              (failing_first 1 (inl (httpx.OtherError "ReadError"))))
           "GET" sample_url None ∅ 1 "ReadError").
  - simpl. lia.
  - intros [|i] Hi; [by left | lia].
  - reflexivity.
Defined.

(** A 503 whose body is [{"detail": "bad field"}]. *)
Lemma classified_error_class_witness :
  ∃ e, (_handle_response sample_loads sample_repr sample_status_text
          (sample_client 3 None (always (inl httpx.ConnectError)))
          (sample_response 503 [] bad_field_body) empty_trace).1 =
         Raise (Matrix e) ∧
       status_code e = Some 503 ∧
       cls e = MatrixAPIError ∧
       retry_after e = None.
Proof.
  eexists. split; [reflexivity |].
  destruct (classified_error_class sample_loads sample_repr sample_status_text
              (sample_client 3 None (always (inl httpx.ConnectError)))
              (sample_response 503 [] bad_field_body) empty_trace _ eq_refl)
    as (Hstatus & Hcls & Hafter).
  split_and!; [exact Hstatus | exact Hcls | apply Hafter; discriminate].
Defined.

Lemma classified_error_payload_witness :
  ∃ e, (_handle_response sample_loads sample_repr sample_status_text
          (sample_client 3 None (always (inl httpx.ConnectError)))
          (sample_response 503 [] bad_field_body) empty_trace).1 =
         Raise (Matrix e) ∧
       (response_data e = VDict ∅ ∨
        truthy (response_data e) = true ∧
        sample_loads bad_field_body = Some (response_data e) ∧
        (cls e = MatrixValidationError ∨ cls e = MatrixAPIError)).
Proof.
  eexists. split; [reflexivity |].
  apply (classified_error_payload sample_loads sample_repr sample_status_text
           (sample_client 3 None (always (inl httpx.ConnectError)))
           (sample_response 503 [] bad_field_body) empty_trace _ eq_refl).
Defined.

Lemma classified_error_message_witness :
  ∃ e, (_handle_response sample_loads sample_repr sample_status_text
          (sample_client 3 None (always (inl httpx.ConnectError)))
          (sample_response 404 [] bad_field_body) empty_trace).1 =
         Raise (Matrix e) ∧
       message e = VStr "bad field".
Proof.
  eexists. split; [reflexivity |].
  apply (classified_error_message sample_loads sample_repr sample_status_text
           (sample_client 3 None (always (inl httpx.ConnectError)))
           (sample_response 404 [] bad_field_body) empty_trace _ eq_refl).
  discriminate.
Defined.

(** A 429 with [Retry-After: 0]: the error carries 0 and no warning is
    logged. *)
Lemma retry_after_any_integer_witness :
  ∃ e t, request sample_loads sample_repr sample_status_text
           (sample_client 3 None
              (always (inr (sample_response 429 [("Retry-After", "0")] ""))))
           "GET" sample_url None ∅ = Some (Raise (Matrix e), t) ∧
         retry_after e = Some 0 ∧
         attempts t = 1%nat ∧
         logged t = [(DEBUG, "http_request"); (ERROR, "http_error")].
Proof.
  destruct (retry_after_any_integer sample_loads sample_repr sample_status_text
              (sample_client 3 None
                 (always (inr (sample_response 429 [("Retry-After", "0")] ""))))
              (sample_response 429 [("Retry-After", "0")] "") "0" 0
              eq_refl eq_refl eq_refl eq_refl)
    as (Hafter & _ & Hcall).
  assert (0 ≤ 3) as Hbudget by lia.
  destruct (Hcall "GET" sample_url None ∅ Hbudget eq_refl)
    as (t & Heq & Hone & Hlog).
  eexists _, t. split_and!; [exact Heq | exact Hafter | exact Hone | exact Hlog].
Defined.

Lemma health_check_unknown_service_witness :
  health_check sample_loads sample_repr sample_status_text
    (sample_client 3 None sample_services) "HUB" =
    Some (Raise ValueError, empty_trace).
Proof.
  apply (health_check_unknown_service sample_loads sample_repr sample_status_text
           (sample_client 3 None sample_services) "HUB").
  rewrite !not_elem_of_cons.
  split_and!; [discriminate.. | apply not_elem_of_nil].
Defined.

Lemma health_check_known_service_witness :
  ∃ t, health_check sample_loads sample_repr sample_status_text
         (sample_client 3 None sample_services) "ai" =
         Some (Raise (Matrix (MatrixNotFoundError__init__
                 (VStr "HTTP status 404") 404)), t) ∧
       ∀ req, req ∈ sent t →
              httpx.method req = "GET" ∧
              httpx.url req =
                "https://huggingface.co/spaces/agent-matrix/matrix-ai/health".
Proof.
  destruct (health_check_known_service sample_loads sample_repr sample_status_text
              (sample_client 3 None sample_services) "ai"
              "https://huggingface.co/spaces/agent-matrix/matrix-ai")
    as (_ & res & t & Heq & _ & _ & Hsent).
  - apply list_elem_of_In. right. left. reflexivity.
  - simpl. lia.
  - exists t. split.
    + rewrite Heq. vm_compute in Heq. injection Heq as <- <-. reflexivity.
    + intros req Hreq. destruct (Hsent req Hreq) as (Hm & Hu & _).
      split; [exact Hm | exact Hu].
Defined.

Lemma raised_error_printable_witness :
  MatrixAPIError__str__ sample_repr
    (MatrixNotFoundError__init__ (VStr "HTTP status 404") 404) =
    Some "[404] HTTP status 404".
Proof.
  destruct (raised_error_printable sample_loads sample_repr sample_status_text
              (sample_client 3 None (always (inr (sample_response 404 [] "gone"))))
              "GET" sample_url None ∅
              (MatrixNotFoundError__init__ (VStr "HTTP status 404") 404)
              _ eq_refl)
    as [(code & Hcode & _ & Hstr) | (Hnone & _)].
  - injection Hcode as <-. exact Hstr.
  - discriminate Hnone.
Defined.

Lemma bounded_config_attempts_witness :
  ∃ res t,
    request sample_loads sample_repr sample_status_text
      (sample_client 10 None (always (inl httpx.ConnectError)))
      "GET" sample_url None ∅ = Some (res, t) ∧
    (1 ≤ attempts t ≤ 11)%nat.
Proof.
  apply (bounded_config_attempts sample_loads sample_repr sample_status_text
           (sample_client 10 None (always (inl httpx.ConnectError)))
           "GET" sample_url None ∅).
  reflexivity.
Defined.

Lemma validate_log_level_canonical_witness :
  "DEBUG" = upper "debug" ∧
  "DEBUG" ∈ ["DEBUG"; "INFO"; "WARNING"; "ERROR"; "CRITICAL"] ∧
  validate_log_level "DEBUG" = Return "DEBUG".
Proof.
  apply (validate_log_level_canonical "debug" "DEBUG"); reflexivity.
Defined.

Lemma validate_log_level_any_case_witness :
  validate_log_level (lower "Warning") = validate_log_level "Warning" ∧
  validate_log_level (upper "Warning") = validate_log_level "Warning".
Proof.
  apply (validate_log_level_any_case "Warning"). reflexivity.
Defined.

Lemma get_config_cached_witness :
  get_config sample_load "other" (Some (sample_config 3 (Some "secret"))) =
    (Some (sample_config 3 (Some "secret")),
     Some (sample_config 3 (Some "secret"))).
Proof.
  destruct (get_config_cached sample_load "secret"
              (Some (sample_config 3 (Some "secret")))
              (Some (sample_config 3 (Some "secret"))) eq_refl)
    as (_ & Hkept & _).
  exact (Hkept _ eq_refl "other").
Defined.



